(** * YouTube companion dashboard: the proxy function, the browser-side
      client and the comments / notes panels

    A shallow embedding of
    - [supabase/functions/youtube-api/index.ts]  (module [Proxy]),
    - the client service that follows the store client in
      [src/lib/supabase.ts]                      (module [YouTube]),
    - [src/hooks/useEventLogger.ts]              (module [EventLogger]),
    - [src/components/NotesSection.tsx]          (module [Notes]),
    - the comments panel                         (module [Comments]),
    followed by the properties of the specification proved about them.

    Conventions.  A JavaScript value that crosses the wire is modelled by
    the JSON value it denotes; [undefined] is the [None] of [JsVal].
    A number is carried as the text [Number::toString] gives for it:
    this code prints numbers, tests them for zero and passes them on,
    and does nothing else with them.  A string is the sequence of its
    code units; [String.prototype.trim] is a parameter of the panels
    that call it.  An [await]ed promise is modelled by its outcome:
    [Returns a] when it resolves, [Throws e] when it rejects.  Everything
    the code reads from its environment (the upstream service, the store,
    the clock, the configured key) is an explicit argument. *)

From Stdlib Require Import String Ascii List ZArith Bool Lia DecimalString.
Import ListNotations.
Local Open Scope string_scope.
Local Open Scope Z_scope.
Set Warnings "-register-all".

(* ================================================================== *)
(** ** JavaScript values, exceptions and outcomes                      *)
(* ================================================================== *)
Module JS.

(** A JSON value.  A number is carried as its printed form, the text
    [Number::toString] gives for it ("5", "1e+21"; zero of either sign
    is "0"). *)
Inductive JSON : Type :=
| JNull
| JBool (b : bool)
| JNum (shown : string)
| JStr (s : string)
| JArr (elems : list JSON)
| JObj (props : list (string * JSON)).

(** A JavaScript value: [None] is [undefined]. *)
Definition JsVal : Type := option JSON.

(** Classes of the error objects this code can see thrown. *)
Inductive ErrorClass : Type :=
| TypeError
| SyntaxError
| DOMException
| PlainError.

Record Exn : Type := mkExn { exn_class : ErrorClass; message : string }.

(** [new Error(msg)] *)
Definition new_Error (msg : string) : Exn := mkExn PlainError msg.

Inductive Outcome (A : Type) : Type :=
| Returns (a : A)
| Throws (e : Exn).
Arguments Returns {A} a.
Arguments Throws {A} e.

Definition string_of_Z (n : Z) : string := NilZero.string_of_int (Z.to_int n).

(** The length of an array, as a number. *)
Definition number_of_nat (n : nat) : string := string_of_Z (Z.of_nat n).

Fixpoint join (sep : string) (l : list string) : string :=
  match l with
  | [] => ""
  | [s] => s
  | s :: rest => s ++ sep ++ join sep rest
  end.

(** The abstract operation ToString, as used by template literals and
    by the [Error] constructor.  An array prints its elements separated
    by commas, [null] elements printing as the empty string. *)
Fixpoint ToString (v : JSON) : string :=
  match v with
  | JNull => "null"
  | JBool true => "true"
  | JBool false => "false"
  | JNum shown => shown
  | JStr s => s
  | JArr elems =>
      join "," (map (fun x => match x with JNull => "" | _ => ToString x end) elems)
  | JObj _ => "[object Object]"
  end.

Definition ToString_val (v : JsVal) : string :=
  match v with
  | None => "undefined"
  | Some j => ToString j
  end.

(** Truthiness: [undefined], [null], [false], [0] and [""] are falsy. *)
Definition truthy (v : JsVal) : bool :=
  match v with
  | None => false
  | Some JNull => false
  | Some (JBool b) => b
  | Some (JNum shown) => negb (shown =? "0")%string
  | Some (JStr s) => negb (s =? "")%string
  | Some (JArr _) => true
  | Some (JObj _) => true
  end.

(** [a || b] *)
Definition or_else (a b : JsVal) : JsVal := if truthy a then a else b.

Fixpoint assoc {A : Type} (k : string) (l : list (string * A)) : option A :=
  match l with
  | [] => None
  | (k', v) :: rest => if (k =? k')%string then Some v else assoc k rest
  end.

(** Own property of a value that is neither [null] nor [undefined].
    Only the names [error], [message], [accessToken], [text], [title],
    [description] and [items] are ever read, and none of them is a
    property of a string, number, boolean or array. *)
Definition get_own (v : JSON) (name : string) : JsVal :=
  match v with
  | JObj props => assoc name props
  | _ => None
  end.

(** [v.name]: a TypeError on [null] or [undefined]. *)
Definition get_prop (v : JsVal) (name : string) : Outcome JsVal :=
  match v with
  | None =>
      Throws (mkExn TypeError
        ("Cannot read properties of undefined (reading '" ++ name ++ "')"))
  | Some JNull =>
      Throws (mkExn TypeError
        ("Cannot read properties of null (reading '" ++ name ++ "')"))
  | Some j => Returns (get_own j name)
  end.

(** Object destructuring [const { first, ... } = v]: a TypeError on
    [null] (a parsed JSON value is never [undefined]). *)
Definition destructure (v : JSON) (first : string) : Outcome unit :=
  match v with
  | JNull =>
      Throws (mkExn TypeError
        ("Cannot destructure property '" ++ first
         ++ "' of '(intermediate value)' as it is null."))
  | _ => Returns tt
  end.

(** [v?.name] *)
Definition get_prop_opt (v : JsVal) (name : string) : JsVal :=
  match v with
  | None => None
  | Some JNull => None
  | Some j => get_own j name
  end.

(** A property of an object literal as [JSON.stringify] sees it: a
    property whose value is [undefined] is left out. *)
Definition prop (name : string) (v : JsVal) : list (string * JSON) :=
  match v with
  | None => []
  | Some j => [(name, j)]
  end.

(** [String.prototype.includes] *)
Fixpoint includes (hay needle : string) : bool :=
  if String.prefix needle hay then true
  else match hay with
       | EmptyString => false
       | String _ rest => includes rest needle
       end.

(** [URLSearchParams.get]: the first value of that name, or [null]. *)
Definition searchParams_get (params : list (string * string)) (name : string)
  : option string := assoc name params.

(** A string-or-null as a JSON value and as a truth value. *)
Definition of_nullable (s : option string) : JSON :=
  match s with
  | None => JNull
  | Some x => JStr x
  end.

(** [case 'label':] of a [switch] on a string-or-null. *)
Definition is_case (v : option string) (label : string) : bool :=
  match v with
  | None => false
  | Some x => (x =? label)%string
  end.

Definition nonempty (s : option string) : bool :=
  match s with
  | None => false
  | Some x => negb (x =? "")%string
  end.

(** Headers are kept as the list of properties of the object literal
    that builds them; [set_key] is a later property of that literal. *)
Fixpoint set_key (k v : string) (l : list (string * string))
  : list (string * string) :=
  match l with
  | [] => [(k, v)]
  | (k', v') :: rest =>
      if (k =? k')%string then (k, v) :: rest else (k', v') :: set_key k v rest
  end.

(** [String.prototype.trim] on a string all of whose code units are
    below 256: the white space there is TAB, LF, VT, FF, CR, SP and the
    no-break space (code 160).  The panels take [trim] as a parameter;
    this instance runs them on concrete texts. *)
Definition is_space (c : ascii) : bool :=
  let n := nat_of_ascii c in
  (Nat.eqb n 32 || Nat.eqb n 9 || Nat.eqb n 10 || Nat.eqb n 11
   || Nat.eqb n 12 || Nat.eqb n 13 || Nat.eqb n 160)%bool.

Fixpoint trim_start (s : string) : string :=
  match s with
  | EmptyString => EmptyString
  | String c rest => if is_space c then trim_start rest else s
  end.

Fixpoint rev_string (s acc : string) : string :=
  match s with
  | EmptyString => acc
  | String c rest => rev_string rest (String c acc)
  end.

Definition trim_latin1 (s : string) : string :=
  rev_string (trim_start (rev_string (trim_start s) "")) "".

End JS.
Import JS.

(* ================================================================== *)
(** ** The proxy function ([supabase/functions/youtube-api/index.ts])  *)
(* ================================================================== *)
Module Proxy.

Definition YOUTUBE_BASE_URL : string := "https://www.googleapis.com/youtube/v3".

(** The incoming request: its method, the query parameters of its URL
    and the outcome of [req.json()]. *)
Record Request : Type := mkRequest {
  method : string;
  searchParams : list (string * string);
  json : Outcome JSON
}.

(** A call of [fetch] to the upstream service. *)
Record UpstreamRequest : Type := mkUpstream {
  up_url : string;
  up_method : string;
  up_headers : list (string * string);
  up_body : option JSON
}.

(** What the handler reads of the upstream response: [response.ok]
    and the outcome of [response.json()]. *)
Record UpstreamResponse : Type := mkUpResponse {
  up_ok : bool;
  up_json : Outcome JSON
}.

(** The response of the handler.  [body] is the JSON value the body
    text denotes, [None] for the [null] body of the preflight reply. *)
Record Response : Type := mkResponse {
  status : Z;
  headers : list (string * string);
  body : option JSON
}.

(** An asynchronous computation of the handler: its outcome and the
    upstream calls it issued, in order. *)
Definition M (A : Type) : Type := (Outcome A * list UpstreamRequest)%type.

Definition ret {A} (a : A) : M A := (Returns a, []).
Definition throw {A} (e : Exn) : M A := (Throws e, []).
Definition bind {A B} (m : M A) (k : A -> M B) : M B :=
  match m with
  | (Returns a, t) => let (r, t') := k a in (r, (t ++ t')%list)
  | (Throws e, t) => (Throws e, t)
  end.
Definition try_catch {A} (m : M A) (h : Exn -> M A) : M A :=
  match m with
  | (Returns a, t) => (Returns a, t)
  | (Throws e, t) => let (r, t') := h e in (r, (t ++ t')%list)
  end.
(** [await p] for a promise whose outcome is known. *)
Definition await {A} (o : Outcome A) : M A := (o, []).

Declare Scope proxy_scope.
Delimit Scope proxy_scope with proxy.
Notation "x <- m ;; k" := (bind m (fun x => k))
  (at level 61, m at next level, right associativity) : proxy_scope.
Notation "m ;;; k" := (bind m (fun _ => k))
  (at level 61, right associativity) : proxy_scope.
Local Open Scope proxy_scope.

Section Handler.
(** [Deno.env.get('YOUTUBE_API_KEY')], [undefined] when unset. *)
Variable YOUTUBE_API_KEY : option string.
(** The shared cross-origin headers of [../_shared/cors.ts]. *)
Variable corsHeaders : list (string * string).
(** The upstream service. *)
Variable upstream : UpstreamRequest -> Outcome UpstreamResponse.

Definition fetch (r : UpstreamRequest) : M UpstreamResponse :=
  (upstream r, [r]).

Definition fetch_get (url : string) : M UpstreamResponse :=
  fetch (mkUpstream url "GET" [] None).

Definition guard (failed : bool) (msg : string) : M unit :=
  if failed then throw (new_Error msg) else ret tt.

Definition key_string : string := ToString_val (option_map JStr YOUTUBE_API_KEY).
Definition id_string (videoId : option string) : string := ToString (of_nullable videoId).

(** The [switch (action)] of the handler; [action] and [videoId] are
    [null] when the query has no such parameter. *)
Definition dispatch (req : Request) (action videoId : option string)
  : M UpstreamResponse :=
  if is_case action "video-details" then
    guard (negb (nonempty videoId)) "Video ID is required" ;;;
    fetch_get (YOUTUBE_BASE_URL ++ "/videos?id=" ++ id_string videoId
               ++ "&part=snippet,statistics,status&key=" ++ key_string)
  else if is_case action "comments" then
    guard (negb (nonempty videoId)) "Video ID is required" ;;;
    fetch_get (YOUTUBE_BASE_URL ++ "/commentThreads?videoId=" ++ id_string videoId
               ++ "&part=snippet,replies&key=" ++ key_string)
  else if is_case action "post-comment" then
    guard (negb (method req =? "POST")%string) "POST method required" ;;;
    parsed <- await (json req) ;;
    await (destructure parsed "accessToken") ;;;
    let accessToken := get_own parsed "accessToken" in
    let text := get_own parsed "text" in
    fetch (mkUpstream
             (YOUTUBE_BASE_URL ++ "/commentThreads?part=snippet")
             "POST"
             [("Authorization", "Bearer " ++ ToString_val accessToken);
              ("Content-Type", "application/json")]
             (Some (JObj [("snippet", JObj
                [("videoId", of_nullable videoId);
                 ("topLevelComment", JObj
                    [("snippet", JObj (prop "textOriginal" text))])])])))
  else if is_case action "delete-comment" then
    guard (negb (method req =? "DELETE")%string) "DELETE method required" ;;;
    parsed <- await (json req) ;;
    await (destructure parsed "accessToken") ;;;
    let deleteToken := get_own parsed "accessToken" in
    let commentId := searchParams_get (searchParams req) "commentId" in
    fetch (mkUpstream
             (YOUTUBE_BASE_URL ++ "/comments?id=" ++ id_string commentId)
             "DELETE"
             [("Authorization", "Bearer " ++ ToString_val deleteToken)]
             None)
  else if is_case action "update-video" then
    guard (negb (method req =? "PUT")%string) "PUT method required" ;;;
    parsed <- await (json req) ;;
    await (destructure parsed "accessToken") ;;;
    let updateToken := get_own parsed "accessToken" in
    let title := get_own parsed "title" in
    let description := get_own parsed "description" in
    fetch (mkUpstream
             (YOUTUBE_BASE_URL ++ "/videos?part=snippet")
             "PUT"
             [("Authorization", "Bearer " ++ ToString_val updateToken);
              ("Content-Type", "application/json")]
             (Some (JObj
                [("id", of_nullable videoId);
                 ("snippet", JObj
                    (prop "title" title ++ prop "description" description
                     ++ [("categoryId", JStr "22")]))])))
  else throw (new_Error "Invalid action").

Definition json_headers : list (string * string) :=
  set_key "Content-Type" "application/json" corsHeaders.

(** The body of the [try] block. *)
Definition handler_try (req : Request) : M Response :=
  let action := searchParams_get (searchParams req) "action" in
  let videoId := searchParams_get (searchParams req) "videoId" in
  guard (negb (nonempty YOUTUBE_API_KEY)) "YouTube API key not configured" ;;;
  response <- dispatch req action videoId ;;
  data <- await (up_json response) ;;
  (if up_ok response then ret tt
   else
     err <- await (get_prop (Some data) "error") ;;
     throw (new_Error
              (ToString_val
                 (or_else (get_prop_opt err "message")
                          (Some (JStr "YouTube API error")))))) ;;;
  ret (mkResponse 200 json_headers (Some data)).

(** The [catch] block. *)
Definition handler_catch (error : Exn) : M Response :=
  ret (mkResponse 400 json_headers
         (Some (JObj [("error", JStr (message error))]))).

Definition handler (req : Request) : M Response :=
  if (method req =? "OPTIONS")%string
  then ret (mkResponse 200 corsHeaders None)
  else try_catch (handler_try req) handler_catch.

End Handler.

End Proxy.

(* ================================================================== *)
(** ** The browser-side client (the service part of [src/lib/supabase.ts],
       imported by the panels as [../services/youtube])                *)
(* ================================================================== *)
Module YouTube.

(** [interface VideoDetails] *)
Record Thumbnails : Type := mkThumbnails { high_url : string }.
Record VideoSnippet : Type := mkVideoSnippet {
  title : string;
  description : string;
  thumbnails : Thumbnails;
  publishedAt : string;
  channelTitle : string
}.
Record Statistics : Type := mkStatistics {
  viewCount : string;
  likeCount : string;
  commentCount : string
}.
Record Status : Type := mkStatus { privacyStatus : string }.
Record VideoDetails : Type := mkVideoDetails {
  id : string;
  snippet : VideoSnippet;
  statistics : Statistics;
  status : Status
}.

(** The second argument of [makeYouTubeRequest] ([options: RequestInit]);
    no caller passes [headers]. *)
Record RequestInit : Type := mkInit {
  init_method : option string;
  init_body : option JSON
}.
Definition no_options : RequestInit := mkInit None None.

(** A call of [fetch] to the proxy.  The query string
    [params.toString()] is kept as the parameter list it serialises. *)
Record ProxyCall : Type := mkCall {
  call_url : string;
  call_params : list (string * string);
  call_method : option string;
  call_headers : list (string * string);
  call_body : option JSON
}.

(** What the client reads of the proxy's response. *)
Record ProxyResponse : Type := mkProxyResponse {
  ok : bool;
  json : Outcome JSON
}.

Definition bind {A B} (m : Outcome A) (k : A -> Outcome B) : Outcome B :=
  match m with
  | Returns a => k a
  | Throws e => Throws e
  end.

Declare Scope client_scope.
Delimit Scope client_scope with client.
Notation "x <- m ;; k" := (bind m (fun x => k))
  (at level 61, m at next level, right associativity) : client_scope.
Local Open Scope client_scope.

(** [error instanceof TypeError] *)
Definition instanceof_TypeError (e : Exn) : bool :=
  match exn_class e with
  | TypeError => true
  | _ => false
  end.

(** [v[0]] *)
Definition index0 (v : JsVal) : Outcome JsVal :=
  match v with
  | None =>
      Throws (mkExn TypeError "Cannot read properties of undefined (reading '0')")
  | Some JNull =>
      Throws (mkExn TypeError "Cannot read properties of null (reading '0')")
  | Some (JArr elems) => Returns (hd_error elems)
  | Some (JStr (String c _)) => Returns (Some (JStr (String c EmptyString)))
  | Some (JObj props) => Returns (assoc "0" props)
  | Some _ => Returns None
  end.

Section Client.
(** [import.meta.env.VITE_SUPABASE_URL] and [..._ANON_KEY] *)
Variable VITE_SUPABASE_URL : string.
Variable VITE_SUPABASE_ANON_KEY : string.
(** The browser's [fetch], answering a call to the proxy. *)
Variable fetch : ProxyCall -> Outcome ProxyResponse.
(** [new Date().toISOString()] *)
Variable now_iso : string.

Definition YOUTUBE_FUNCTION_URL : string :=
  VITE_SUPABASE_URL ++ "/functions/v1/youtube-api".

Definition getMockData (params : list (string * string)) : JSON :=
  let action := searchParams_get params "action" in
  let videoId := searchParams_get params "videoId" in
  if is_case action "video-details" then
    JObj [("items", JArr [
      JObj [("id", of_nullable videoId);
            ("snippet", JObj [
               ("title", JStr "Sample YouTube Video");
               ("description", JStr "This is a sample video description. The actual video details would be fetched from the YouTube API when the Edge Function is properly deployed.");
               ("thumbnails", JObj [
                  ("high", JObj [
                     ("url", JStr ("https://img.youtube.com/vi/"
                                   ++ ToString (of_nullable videoId)
                                   ++ "/hqdefault.jpg"))])]);
               ("publishedAt", JStr now_iso);
               ("channelTitle", JStr "Sample Channel")]);
            ("statistics", JObj [
               ("viewCount", JStr "1234567");
               ("likeCount", JStr "12345");
               ("commentCount", JStr "567")]);
            ("status", JObj [("privacyStatus", JStr "public")])]])]
  else if is_case action "comments" then
    JObj [("items", JArr [
      JObj [("id", JStr "sample-comment-1");
            ("snippet", JObj [
               ("topLevelComment", JObj [
                  ("snippet", JObj [
                     ("textDisplay", JStr "This is a sample comment. Real comments would be fetched when the Edge Function is deployed.");
                     ("authorDisplayName", JStr "Sample User");
                     ("publishedAt", JStr now_iso);
                     ("likeCount", JNum "5")])]);
               ("totalReplyCount", JNum "0")])]])]
  else JObj [("items", JArr [])].

(** The argument of [fetch] in [makeYouTubeRequest]. *)
Definition proxy_call (params : list (string * string)) (options : RequestInit)
  : ProxyCall :=
  mkCall YOUTUBE_FUNCTION_URL params
    (init_method options)
    [("Content-Type", "application/json");
     ("Authorization", "Bearer " ++ VITE_SUPABASE_ANON_KEY)]
    (init_body options).

(** The [try] block of [makeYouTubeRequest].  [Throws e] is an
    exception raised inside the block; [Returns o] is the promise
    [response.json()] handed to [return] without [await], whose
    outcome [o] therefore bypasses the [catch]. *)
Definition request_try (params : list (string * string)) (options : RequestInit)
  : Outcome (Outcome JSON) :=
  response <- fetch (proxy_call params options) ;;
  if ok response then Returns (json response)
  else
    error <- json response ;;
    reason <- get_prop (Some error) "error" ;;
    Throws (new_Error
              (ToString_val
                 (or_else reason (Some (JStr "YouTube API request failed"))))).

(** The test of the [catch] block. *)
Definition is_fetch_failure (error : Exn) : bool :=
  instanceof_TypeError error && includes (message error) "fetch".

Definition makeYouTubeRequest (params : list (string * string))
  (options : RequestInit) : Outcome JSON :=
  match request_try params options with
  | Returns o => o
  | Throws error =>
      if is_fetch_failure error then Returns (getMockData params)
      else Throws error
  end.

Definition getVideoDetails (videoId : string) : Outcome JsVal :=
  let params := [("action", "video-details"); ("videoId", videoId)] in
  data <- makeYouTubeRequest params no_options ;;
  items <- get_prop (Some data) "items" ;;
  index0 items.

Definition getVideoComments (videoId : string) : Outcome JsVal :=
  let params := [("action", "comments"); ("videoId", videoId)] in
  data <- makeYouTubeRequest params no_options ;;
  items <- get_prop (Some data) "items" ;;
  Returns (or_else items (Some (JArr []))).

Definition postComment (videoId text accessToken : string) : Outcome JSON :=
  let params := [("action", "post-comment"); ("videoId", videoId)] in
  makeYouTubeRequest params
    (mkInit (Some "POST")
       (Some (JObj [("accessToken", JStr accessToken); ("text", JStr text)]))).

Definition deleteComment (commentId accessToken : string) : Outcome JSON :=
  let params := [("action", "delete-comment"); ("commentId", commentId)] in
  makeYouTubeRequest params
    (mkInit (Some "DELETE")
       (Some (JObj [("accessToken", JStr accessToken)]))).

Definition updateVideo (videoId title description accessToken : string)
  : Outcome JSON :=
  let params := [("action", "update-video"); ("videoId", videoId)] in
  makeYouTubeRequest params
    (mkInit (Some "PUT")
       (Some (JObj [("accessToken", JStr accessToken);
                    ("title", JStr title);
                    ("description", JStr description)]))).

End Client.

(** Reading a JSON value at the type [VideoDetails]: every field of
    the interface has to be present, as a string. *)
Definition str_field (v : JSON) (name : string) : option string :=
  match get_own v name with
  | Some (JStr s) => Some s
  | _ => None
  end.

Definition obj_field (v : JSON) (name : string) : option JSON :=
  match get_own v name with
  | Some (JObj props) => Some (JObj props)
  | _ => None
  end.

Definition obind {A B} (m : option A) (k : A -> option B) : option B :=
  match m with
  | Some a => k a
  | None => None
  end.

Definition as_VideoDetails (v : JSON) : option VideoDetails :=
  obind (str_field v "id") (fun i =>
  obind (obj_field v "snippet") (fun sn =>
  obind (str_field sn "title") (fun t =>
  obind (str_field sn "description") (fun d =>
  obind (obj_field sn "thumbnails") (fun th =>
  obind (obj_field th "high") (fun hi =>
  obind (str_field hi "url") (fun u =>
  obind (str_field sn "publishedAt") (fun p =>
  obind (str_field sn "channelTitle") (fun c =>
  obind (obj_field v "statistics") (fun stt =>
  obind (str_field stt "viewCount") (fun vc =>
  obind (str_field stt "likeCount") (fun lc =>
  obind (str_field stt "commentCount") (fun cc =>
  obind (obj_field v "status") (fun stu =>
  obind (str_field stu "privacyStatus") (fun ps =>
  Some (mkVideoDetails i
          (mkVideoSnippet t d (mkThumbnails u) p c)
          (mkStatistics vc lc cc)
          (mkStatus ps))))))))))))))))).

End YouTube.

(* ================================================================== *)
(** ** [src/hooks/useEventLogger.ts] and the effects of the panels     *)
(* ================================================================== *)
Module EventLogger.

(** The authenticated caller of [useAuth]. *)
Record User : Type := mkUser { user_id : string; email : option string }.

(** What a panel handler does to the world outside its own state, in
    the order it does it. *)
Inductive Effect : Type :=
| ConsoleLog (label detail : string)
| ConsoleError (label detail : string)
| Confirm (question : string)
| InsertEventLog (owner event_type : string) (event_data : JSON)
| SelectNotes (video_id owner : string)
| InsertNote (owner video_id content : string)
| UpdateNote (note_id content : string)
| DeleteNote (note_id : string)
| ProxyRequest (action : string) (video_id : string).

(** The effects that go over the network: the calls to the store and
    the calls to the proxy. *)
Definition is_network (e : Effect) : bool :=
  match e with
  | ConsoleLog _ _ | ConsoleError _ _ | Confirm _ => false
  | _ => true
  end.

Definition is_proxy_call (e : Effect) : bool :=
  match e with
  | ProxyRequest _ _ => true
  | _ => false
  end.

Section Logger.
Variable user : option User.
(** The outcome of awaiting the insert into [event_logs]. *)
Variable insert_event : string -> string -> JSON -> Outcome unit.

Definition logEvent (eventType : string) (eventData : JSON) : list Effect :=
  match user with
  | None => []
  | Some u =>
      InsertEventLog (user_id u) eventType eventData ::
      match insert_event (user_id u) eventType eventData with
      | Returns _ => []
      | Throws error => [ConsoleError "Failed to log event:" (message error)]
      end
  end.
End Logger.

End EventLogger.
Import EventLogger.

(* ================================================================== *)
(** ** The notes panel ([src/components/NotesSection.tsx])             *)
(* ================================================================== *)
Module Notes.

(** [interface Note] *)
Record Note : Type := mkNote {
  id : string;
  content : string;
  created_at : string;
  updated_at : string
}.

(** The value a failed store call ends in the [catch] block with:
    whether it is an [Error] instance, and its [message]. *)
Record StoreError : Type := mkStoreError {
  instanceof_Error : bool;
  error_message : string
}.

Inductive StoreReply (A : Type) : Type :=
| StoreOk (data : A)
| StoreFailed (err : StoreError).
Arguments StoreOk {A} data.
Arguments StoreFailed {A} err.

(** The [useState] cells of the component. *)
Record State : Type := mkState {
  notes : list Note;
  loading : bool;
  error : string;
  editingNote : option string;
  editContent : string;
  newNote : string;
  adding : bool
}.

(** [err instanceof Error ? err.message : fallback] *)
Definition error_text (err : StoreError) (fallback : string) : string :=
  if instanceof_Error err then error_message err else fallback.

Section Panel.
(** [String.prototype.trim] *)
Variable trim : string -> string.
Variable videoId : string.
Variable user : option User.
Variable insert_event : string -> string -> JSON -> Outcome unit.
(** The store: select / insert / update / delete on [notes].  The
    rows of a select may come back as [null]. *)
Variable store_select : string -> string -> StoreReply (option (list Note)).
Variable store_insert : string -> string -> string -> StoreReply Note.
Variable store_update : string -> string -> StoreReply Note.
Variable store_delete : string -> StoreReply unit.
(** The answer of the user to [confirm]. *)
Variable confirm : string -> bool.

Definition logEvent := EventLogger.logEvent user insert_event.

(** Each handler below is one run of the React callback on the state
    [st] it closed over: the result is the state after all its [setX]
    calls, with the effects it had on the way.  [logEvent] catches its
    own failures, so awaiting it inside a [try] never reaches the
    [catch]. *)
Definition fetchNotes (st : State) : State * list Effect :=
  (* setLoading(true); setError('') ... finally setLoading(false) *)
  match user with
  | Some u =>
      let call := SelectNotes videoId (user_id u) in
      match store_select videoId (user_id u) with
      | StoreOk data =>
          let rows := match data with Some l => l | None => [] end in
          (mkState rows false "" (editingNote st) (editContent st)
             (newNote st) (adding st),
           call :: logEvent "notes_fetched"
                     (JObj [("videoId", JStr videoId);
                            ("noteCount", JNum (number_of_nat (length rows)))]))
      | StoreFailed err =>
          let errorMessage := error_text err "Failed to fetch notes" in
          (mkState (notes st) false errorMessage (editingNote st)
             (editContent st) (newNote st) (adding st),
           call :: logEvent "notes_fetch_failed"
                     (JObj [("videoId", JStr videoId);
                            ("error", JStr errorMessage)]))
      end
  | None =>
      (* [user!.id] on [null] *)
      (mkState (notes st) false
         "Cannot read properties of null (reading 'id')"
         (editingNote st) (editContent st) (newNote st) (adding st),
       [])
  end.

Definition handleAddNote (st : State) : State * list Effect :=
  match user with
  | Some u =>
      if (trim (newNote st) =? "")%string then (st, [])
      else
        (* setAdding(true) ... finally setAdding(false) *)
        let call := InsertNote (user_id u) videoId (trim (newNote st)) in
        match store_insert (user_id u) videoId (trim (newNote st)) with
        | StoreOk data =>
            (mkState (data :: notes st) (loading st) (error st)
               (editingNote st) (editContent st) "" false,
             call :: logEvent "note_added"
                       (JObj [("videoId", JStr videoId);
                              ("noteId", JStr (id data))]))
        | StoreFailed err =>
            let errorMessage := error_text err "Failed to add note" in
            (mkState (notes st) (loading st) errorMessage
               (editingNote st) (editContent st) (newNote st) false,
             call :: logEvent "note_add_failed"
                       (JObj [("videoId", JStr videoId);
                              ("error", JStr errorMessage)]))
        end
  | None => (st, [])
  end.

Definition handleEditNote (noteId : string) (st : State) : State * list Effect :=
  if (trim (editContent st) =? "")%string then (st, [])
  else
    let call := UpdateNote noteId (trim (editContent st)) in
    match store_update noteId (trim (editContent st)) with
    | StoreOk data =>
        (mkState
           (map (fun note => if (id note =? noteId)%string then data else note)
                (notes st))
           (loading st) (error st) None "" (newNote st) (adding st),
         call :: logEvent "note_updated"
                   (JObj [("videoId", JStr videoId); ("noteId", JStr noteId)]))
    | StoreFailed err =>
        let errorMessage := error_text err "Failed to update note" in
        (mkState (notes st) (loading st) errorMessage
           (editingNote st) (editContent st) (newNote st) (adding st),
         call :: logEvent "note_update_failed"
                   (JObj [("videoId", JStr videoId); ("noteId", JStr noteId);
                          ("error", JStr errorMessage)]))
    end.

Definition handleDeleteNote (noteId : string) (st : State) : State * list Effect :=
  let question := "Are you sure you want to delete this note?" in
  if negb (confirm question) then (st, [Confirm question])
  else
    match store_delete noteId with
    | StoreOk _ =>
        (mkState
           (filter (fun note => negb (id note =? noteId)%string) (notes st))
           (loading st) (error st)
           (editingNote st) (editContent st) (newNote st) (adding st),
         Confirm question :: DeleteNote noteId ::
         logEvent "note_deleted"
           (JObj [("videoId", JStr videoId); ("noteId", JStr noteId)]))
    | StoreFailed err =>
        let errorMessage := error_text err "Failed to delete note" in
        (mkState (notes st) (loading st) errorMessage
           (editingNote st) (editContent st) (newNote st) (adding st),
         Confirm question :: DeleteNote noteId ::
         logEvent "note_delete_failed"
           (JObj [("videoId", JStr videoId); ("noteId", JStr noteId);
                  ("error", JStr errorMessage)]))
    end.

End Panel.

End Notes.

(* ================================================================== *)
(** ** The comments panel (the [CommentsSection] component)            *)
(* ================================================================== *)
Module Comments.

(** [interface Comment] of the client service. *)
Record CommentSnippet : Type := mkCommentSnippet {
  textDisplay : string;
  authorDisplayName : string;
  publishedAt : string;
  likeCount : Z
}.
Record Reply : Type := mkReply { reply_id : string; reply_snippet : CommentSnippet }.
Record TopLevelComment : Type := mkTopLevel { tl_snippet : CommentSnippet }.
Record ThreadSnippet : Type := mkThreadSnippet {
  topLevelComment : TopLevelComment;
  totalReplyCount : Z
}.
Record Comment : Type := mkComment {
  id : string;
  snippet : ThreadSnippet;
  replies : option (list Reply)
}.

(** The [useState] cells of the component. *)
Record State : Type := mkState {
  comments : list Comment;
  loading : bool;
  error : string;
  newComment : string;
  posting : bool
}.

Section Panel.
(** [String.prototype.trim] *)
Variable trim : string -> string.
Variable videoId : string.
Variable user : option User.
Variable insert_event : string -> string -> JSON -> Outcome unit.
(** [getVideoComments] of the client service, at its declared type. *)
Variable getVideoComments : string -> Outcome (list Comment).
(** [Date.now()], a number, and [new Date().toISOString()] *)
Variable now_ms : string.
Variable now_iso : string.

Definition logEvent := EventLogger.logEvent user insert_event.

(** As in the notes panel, a handler is one run of the callback on the
    state it closed over.  In [handlePostComment] and
    [handleDeleteComment] the [try] block holds nothing that can throw
    ([logEvent] catches its own failures), so their [catch] blocks are
    never entered. *)
Definition fetchComments (st : State) : State * list Effect :=
  (* setLoading(true); setError('') ... finally setLoading(false) *)
  match getVideoComments videoId with
  | Returns data =>
      (mkState data false "" (newComment st) (posting st),
       ProxyRequest "comments" videoId ::
       logEvent "comments_fetched"
         (JObj [("videoId", JStr videoId);
                ("commentCount", JNum (number_of_nat (length data)))]))
  | Throws err =>
      let errorMessage := message err in
      (mkState (comments st) false errorMessage (newComment st) (posting st),
       ProxyRequest "comments" videoId ::
       logEvent "comments_fetch_failed"
         (JObj [("videoId", JStr videoId); ("error", JStr errorMessage)]))
  end.

(** [user.email || 'You'] *)
Definition display_name (u : User) : string :=
  match email u with
  | Some e => if (e =? "")%string then "You" else e
  | None => "You"
  end.

Definition handlePostComment (st : State) : State * list Effect :=
  match user with
  | Some u =>
      if (trim (newComment st) =? "")%string then (st, [])
      else
        (* setPosting(true) ... finally setPosting(false) *)
        let mockComment :=
          mkComment ("mock-" ++ now_ms)
            (mkThreadSnippet
               (mkTopLevel
                  (mkCommentSnippet (newComment st) (display_name u) now_iso 0))
               0)
            None in
        (mkState (mockComment :: comments st) (loading st) (error st) "" false,
         ConsoleLog "Would post comment:" (newComment st) ::
         logEvent "comment_attempted"
           (JObj [("videoId", JStr videoId);
                  ("commentText", JStr (newComment st))]))
  | None => (st, [])
  end.

Definition handleDeleteComment (commentId : string) (st : State)
  : State * list Effect :=
  (mkState
     (filter (fun c => negb (id c =? commentId)%string) (comments st))
     (loading st) (error st) (newComment st) (posting st),
   ConsoleLog "Would delete comment:" commentId ::
   logEvent "comment_deleted"
     (JObj [("videoId", JStr videoId); ("commentId", JStr commentId)])).

End Panel.

End Comments.

(* ================================================================== *)
(** ** Vocabulary of the properties, and the scenarios they are run on  *)
(* ================================================================== *)

(** The error envelope of the proxy's [catch] block. *)
Definition envelope (cors : list (string * string)) (msg : string)
  : Proxy.Response :=
  Proxy.mkResponse 400 (Proxy.json_headers cors)
    (Some (JObj [("error", JStr msg)])).


(** The handler answers 400 with the envelope [{error: msg}]. *)
Definition answers_400_with (out : Proxy.M Proxy.Response) (msg : string) : Prop :=
  exists r trace,
    out = (Returns r, trace) /\ Proxy.status r = 400 /\
    Proxy.body r = Some (JObj [("error", JStr msg)]).

(** An upstream service that cannot be reached. *)
Definition unreachable_upstream (_ : Proxy.UpstreamRequest)
  : Outcome Proxy.UpstreamResponse :=
  Throws (mkExn TypeError "error sending request").

(** An upstream service that accepts every call and answers [{}]. *)
Definition accepting_upstream (_ : Proxy.UpstreamRequest)
  : Outcome Proxy.UpstreamResponse :=
  Returns (Proxy.mkUpResponse true (Returns (JObj []))).

Definition no_body : Outcome JSON :=
  Throws (mkExn SyntaxError "Unexpected end of JSON input").

(** A preflight request and a plain GET, both naming [post-comment]. *)
Definition preflight_post_comment : Proxy.Request :=
  Proxy.mkRequest "OPTIONS"
    [("action", "post-comment"); ("videoId", "abc123")] no_body.

Definition get_post_comment : Proxy.Request :=
  Proxy.mkRequest "GET"
    [("action", "post-comment"); ("videoId", "abc123")] no_body.

(** The three writes, each with the right method and a well-formed
    body, but without the identifier parameter. *)
Definition post_without_videoId : Proxy.Request :=
  Proxy.mkRequest "POST" [("action", "post-comment")]
    (Returns (JObj [("accessToken", JStr "token"); ("text", JStr "nice video!")])).

Definition put_without_videoId : Proxy.Request :=
  Proxy.mkRequest "PUT" [("action", "update-video")]
    (Returns (JObj [("accessToken", JStr "token"); ("title", JStr "t");
                    ("description", JStr "d")])).

Definition delete_without_commentId : Proxy.Request :=
  Proxy.mkRequest "DELETE" [("action", "delete-comment")]
    (Returns (JObj [("accessToken", JStr "token")])).

(** A read and a write with everything in place. *)
Definition get_video_details : Proxy.Request :=
  Proxy.mkRequest "GET"
    [("action", "video-details"); ("videoId", "abc123")] no_body.


(** The proxy cannot be reached: every call of [fetch] rejects with [e]. *)
Definition unreachable (fetch : YouTube.ProxyCall -> Outcome YouTube.ProxyResponse)
  (e : Exn) : Prop :=
  forall call, fetch call = Throws e.

(** The rejection of a browser whose message mentions [fetch], and the
    rejection of one whose message does not. *)
Definition failed_to_fetch : Exn := mkExn TypeError "Failed to fetch".
Definition load_failed : Exn := mkExn TypeError "Load failed".

Definition offline (e : Exn) (_ : YouTube.ProxyCall) : Outcome YouTube.ProxyResponse :=
  Throws e.

(** A proxy that answers every call with success and an empty list. *)
Definition answers_no_items (_ : YouTube.ProxyCall) : Outcome YouTube.ProxyResponse :=
  Returns (YouTube.mkProxyResponse true (Returns (JObj [("items", JArr [])]))).

(** The value of [getMockData] outside the two reads. *)
Definition empty_items : JSON := JObj [("items", JArr [])].

(** The placeholder video of [getMockData], read at [VideoDetails]. *)
Definition placeholder_video (videoId now_iso : string) : YouTube.VideoDetails :=
  YouTube.mkVideoDetails videoId
    (YouTube.mkVideoSnippet
       "Sample YouTube Video"
       "This is a sample video description. The actual video details would be fetched from the YouTube API when the Edge Function is properly deployed."
       (YouTube.mkThumbnails
          ("https://img.youtube.com/vi/" ++ videoId ++ "/hqdefault.jpg"))
       now_iso
       "Sample Channel")
    (YouTube.mkStatistics "1234567" "12345" "567")
    (YouTube.mkStatus "public").

(** A signed-in user, a store and a clock for the panels. *)
Definition alice : User := mkUser "user-1" (Some "alice@example.com").

Definition log_ok (_ _ : string) (_ : JSON) : Outcome unit := Returns tt.

Definition note1 : Notes.Note :=
  Notes.mkNote "n1" "tighten the intro" "2025-07-20T05:00:00Z" "2025-07-20T05:00:00Z".
Definition note2 : Notes.Note :=
  Notes.mkNote "n2" "add captions" "2025-07-19T05:00:00Z" "2025-07-19T05:00:00Z".
Definition inserted_row : Notes.Note :=
  Notes.mkNote "n3" "improve pacing" "2025-07-20T06:00:00Z" "2025-07-20T06:00:00Z".
Definition updated_row : Notes.Note :=
  Notes.mkNote "n1" "shorten the intro" "2025-07-20T05:00:00Z" "2025-07-20T06:30:00Z".

Definition notes_ready : Notes.State :=
  Notes.mkState [note1; note2] false "" (Some "n1") "shorten the intro "
    " improve pacing" false.

Definition insert_accepted (_ _ _ : string) : Notes.StoreReply Notes.Note :=
  Notes.StoreOk inserted_row.
Definition update_accepted (_ _ : string) : Notes.StoreReply Notes.Note :=
  Notes.StoreOk updated_row.
Definition permission_denied : Notes.StoreError :=
  Notes.mkStoreError true "new row violates row-level security policy".
Definition delete_refused (_ : string) : Notes.StoreReply unit :=
  Notes.StoreFailed permission_denied.
Definition always_yes (_ : string) : bool := true.

Definition sample_comment : Comments.Comment :=
  Comments.mkComment "sample-comment-1"
    (Comments.mkThreadSnippet
       (Comments.mkTopLevel
          (Comments.mkCommentSnippet "first!" "Sample User"
             "2025-07-19T05:00:00Z" 5))
       0)
    None.

Definition comments_ready : Comments.State :=
  Comments.mkState [sample_comment] false "" "nice video!" false.

(** No effect of the list is a call to the proxy. *)
Definition no_proxy_call (effects : list Effect) : Prop :=
  Forall (fun e => is_proxy_call e = false) effects.

(** The five values of [action] the switch of the proxy has a case for. *)
Definition known_actions : list string :=
  ["video-details"; "comments"; "post-comment"; "delete-comment"; "update-video"].

(** The method each write has to come with. *)
Definition is_write_with_method (action : option string) (m : string) : Prop :=
  (action = Some "post-comment" /\ m = "POST") \/
  (action = Some "delete-comment" /\ m = "DELETE") \/
  (action = Some "update-video" /\ m = "PUT").

(** An upstream service that answers success with an empty body (204),
    and one that refuses the call with an error message. *)
Definition empty_answer_upstream (_ : Proxy.UpstreamRequest)
  : Outcome Proxy.UpstreamResponse :=
  Returns (Proxy.mkUpResponse true no_body).

Definition refusing_upstream (_ : Proxy.UpstreamRequest)
  : Outcome Proxy.UpstreamResponse :=
  Returns (Proxy.mkUpResponse false
             (Returns (JObj [("error", JObj
                [("code", JNum "404");
                 ("message", JStr "The comment cannot be found.")])]))).

Definition delete_comment_request : Proxy.Request :=
  Proxy.mkRequest "DELETE"
    [("action", "delete-comment"); ("commentId", "c1")]
    (Returns (JObj [("accessToken", JStr "token")])).

Definition delete_comment_call : Proxy.UpstreamRequest :=
  Proxy.mkUpstream "https://www.googleapis.com/youtube/v3/comments?id=c1"
    "DELETE" [("Authorization", "Bearer token")] None.

(** A write whose body carries no [accessToken]. *)
Definition post_without_token : Proxy.Request :=
  Proxy.mkRequest "POST"
    [("action", "post-comment"); ("videoId", "abc123")]
    (Returns (JObj [("text", JStr "nice video!")])).

(** A proxy that answers 400 with an envelope, one whose error answer
    cannot be read because the connection drops, and one whose success
    answer cannot be read for the same reason. *)
Definition answers_400 (msg : string) (_ : YouTube.ProxyCall)
  : Outcome YouTube.ProxyResponse :=
  Returns (YouTube.mkProxyResponse false (Returns (JObj [("error", JStr msg)]))).

Definition drops_error_body (_ : YouTube.ProxyCall) : Outcome YouTube.ProxyResponse :=
  Returns (YouTube.mkProxyResponse false (Throws failed_to_fetch)).

Definition drops_success_body (_ : YouTube.ProxyCall) : Outcome YouTube.ProxyResponse :=
  Returns (YouTube.mkProxyResponse true (Throws failed_to_fetch)).

(** A proxy that answers success with two videos, and one that answers
    success with an object that has no [items]. *)
Definition answers_two_videos (_ : YouTube.ProxyCall) : Outcome YouTube.ProxyResponse :=
  Returns (YouTube.mkProxyResponse true
             (Returns (JObj [("items", JArr [JObj [("id", JStr "first")];
                                             JObj [("id", JStr "second")]])]))).

Definition answers_empty_object (_ : YouTube.ProxyCall) : Outcome YouTube.ProxyResponse :=
  Returns (YouTube.mkProxyResponse true (Returns (JObj []))).

(* ================================================================== *)
(** ** The client in front of the deployed proxy                       *)
(* ================================================================== *)
Module Wire.

(** One HTTP exchange between the client and the proxy function.  The
    call of the client reaches the handler as a request with the same
    method ([GET] when the client names none), the same query
    parameters and the same JSON body; the response of the handler
    reaches the client with [ok] telling whether its status is a 2xx
    and with the same JSON body.  A request or response without a body
    cannot be read as JSON. *)
Definition unreadable : Outcome JSON :=
  Throws (mkExn SyntaxError "Unexpected end of JSON input").

Definition to_request (call : YouTube.ProxyCall) : Proxy.Request :=
  Proxy.mkRequest
    match YouTube.call_method call with
    | Some m => m
    | None => "GET"
    end
    (YouTube.call_params call)
    match YouTube.call_body call with
    | Some b => Returns b
    | None => unreadable
    end.

Definition to_response (r : Proxy.Response) : YouTube.ProxyResponse :=
  YouTube.mkProxyResponse
    ((200 <=? Proxy.status r) && (Proxy.status r <=? 299))
    match Proxy.body r with
    | Some b => Returns b
    | None => unreadable
    end.

(** The [fetch] of a browser whose proxy endpoint is the handler, run
    with the given key, headers and upstream service. *)
Definition deployed (key : option string) (cors : list (string * string))
  (up : Proxy.UpstreamRequest -> Outcome Proxy.UpstreamResponse)
  (call : YouTube.ProxyCall) : Outcome YouTube.ProxyResponse :=
  match fst (Proxy.handler key cors up (to_request call)) with
  | Returns r => Returns (to_response r)
  | Throws e => Throws e
  end.

End Wire.

(** An upstream service that knows one video. *)
Definition one_video : JSON :=
  JObj [("id", JStr "abc123");
        ("snippet", JObj [("title", JStr "My video")])].

Definition serves_one_video (_ : Proxy.UpstreamRequest)
  : Outcome Proxy.UpstreamResponse :=
  Returns (Proxy.mkUpResponse true
             (Returns (JObj [("kind", JStr "youtube#videoListResponse");
                             ("items", JArr [one_video])]))).

(* ================================================================== *)
(** ** The video card ([src/components/VideoDetailsCard.tsx])          *)
(* ================================================================== *)
Module VideoCard.

(** The [useState] cells of the component; a [video] that is [null] or
    [undefined] is [None]. *)
Record State : Type := mkState {
  video : option YouTube.VideoDetails;
  loading : bool;
  error : string
}.

(** What the component returns: the loading skeleton, the error box,
    nothing at all, or the card of a video. *)
Inductive View : Type :=
| Skeleton
| ErrorBox (msg : string)
| Nothing
| Card (v : YouTube.VideoDetails).

Definition render (st : State) : View :=
  if loading st then Skeleton
  else if negb (error st =? "")%string then ErrorBox (error st)
  else match video st with
       | None => Nothing
       | Some v => Card v
       end.

(** The description as the card prints it: not at all when empty, cut
    to 300 characters and an ellipsis when longer than that. *)
Definition shown_description (d : string) : option string :=
  if (d =? "")%string then None
  else if (300 <? String.length d)%nat
       then Some (String.substring 0 300 d ++ "...")
       else Some d.

Section Panel.
Variable videoId : string.
Variable user : option User.
Variable insert_event : string -> string -> JSON -> Outcome unit.
(** [getVideoDetails] of the client service; it can resolve to
    [undefined], which is [None] here. *)
Variable getVideoDetails : string -> Outcome (option YouTube.VideoDetails).

Definition logEvent := EventLogger.logEvent user insert_event.

Definition fetchVideoDetails (st : State) : State * list Effect :=
  (* setLoading(true); setError('') ... finally setLoading(false) *)
  match getVideoDetails videoId with
  | Returns (Some data) =>
      (mkState (Some data) false "",
       ProxyRequest "video-details" videoId ::
       logEvent "video_details_fetched"
         (JObj [("videoId", JStr videoId);
                ("videoTitle", JStr (YouTube.title (YouTube.snippet data)))]))
  | Returns None =>
      (* setVideo(undefined), then [data.snippet] throws *)
      let errorMessage :=
        "Cannot read properties of undefined (reading 'snippet')" in
      (mkState None false errorMessage,
       ProxyRequest "video-details" videoId ::
       logEvent "video_details_fetch_failed"
         (JObj [("videoId", JStr videoId); ("error", JStr errorMessage)]))
  | Throws err =>
      let errorMessage := message err in
      (mkState (video st) false errorMessage,
       ProxyRequest "video-details" videoId ::
       logEvent "video_details_fetch_failed"
         (JObj [("videoId", JStr videoId); ("error", JStr errorMessage)]))
  end.

End Panel.

End VideoCard.

(* ================================================================== *)
(** ** The video editor (the [VideoEditor] component)                  *)
(* ================================================================== *)
Module VideoEditor.

Record State : Type := mkState {
  video : option YouTube.VideoDetails;
  title : string;
  description : string;
  loading : bool;
  saving : bool;
  error : string;
  success : string
}.

(** The effects of the editor: those of a panel, a [console.log] of an
    object, and the timer that clears the success text. *)
Inductive EditorEffect : Type :=
| Panel (e : Effect)
| ConsoleLogValue (label : string) (value : JSON)
| SetTimeout (ms : Z).

(** What the component returns: the loading skeleton, the invitation
    to enter a video id, or the form with its error text, its success
    text and whether the save button is disabled. *)
Inductive View : Type :=
| Skeleton
| Placeholder
| Form (error success : string) (save_disabled : bool).

Definition render (st : State) : View :=
  if loading st then Skeleton
  else match video st with
       | None => Placeholder
       | Some v =>
           Form (error st) (success st)
             (saving st
              || ((title st =? YouTube.title (YouTube.snippet v))%string
                  && (description st
                      =? YouTube.description (YouTube.snippet v))%string))
       end.

Section Panel.
Variable videoId : string.
Variable user : option User.
Variable insert_event : string -> string -> JSON -> Outcome unit.
Variable getVideoDetails : string -> Outcome (option YouTube.VideoDetails).

Definition logEvent (eventType : string) (eventData : JSON) : list EditorEffect :=
  map Panel (EventLogger.logEvent user insert_event eventType eventData).

Definition fetchVideoDetails (st : State) : State * list EditorEffect :=
  (* setLoading(true); setError('') ... finally setLoading(false) *)
  match getVideoDetails videoId with
  | Returns (Some data) =>
      (mkState (Some data)
         (YouTube.title (YouTube.snippet data))
         (YouTube.description (YouTube.snippet data))
         false (saving st) "" (success st),
       Panel (ProxyRequest "video-details" videoId) ::
       logEvent "video_editor_opened" (JObj [("videoId", JStr videoId)]))
  | Returns None =>
      (* setVideo(undefined), then [data.snippet] throws *)
      let errorMessage :=
        "Cannot read properties of undefined (reading 'snippet')" in
      (mkState None (title st) (description st) false (saving st)
         errorMessage (success st),
       Panel (ProxyRequest "video-details" videoId) ::
       logEvent "video_editor_fetch_failed"
         (JObj [("videoId", JStr videoId); ("error", JStr errorMessage)]))
  | Throws err =>
      let errorMessage := message err in
      (mkState (video st) (title st) (description st) false (saving st)
         errorMessage (success st),
       Panel (ProxyRequest "video-details" videoId) ::
       logEvent "video_editor_fetch_failed"
         (JObj [("videoId", JStr videoId); ("error", JStr errorMessage)]))
  end.

(** [{...video, snippet: {...video.snippet, title, description}}] *)
Definition with_text (v : YouTube.VideoDetails) (t d : string)
  : YouTube.VideoDetails :=
  YouTube.mkVideoDetails (YouTube.id v)
    (YouTube.mkVideoSnippet t d
       (YouTube.thumbnails (YouTube.snippet v))
       (YouTube.publishedAt (YouTube.snippet v))
       (YouTube.channelTitle (YouTube.snippet v)))
    (YouTube.statistics v)
    (YouTube.status v).

Definition handleSave (st : State) : State * list EditorEffect :=
  match video st, user with
  | Some v, Some _ =>
      (* setSaving(true); setError(''); setSuccess('') ...
         finally setSaving(false) *)
      (mkState (Some (with_text v (title st) (description st)))
         (title st) (description st) (loading st) false ""
         "Video updated successfully!",
       ConsoleLogValue "Would update video:"
         (JObj [("title", JStr (title st));
                ("description", JStr (description st))]) ::
       logEvent "video_update_attempted"
         (JObj [("videoId", JStr videoId);
                ("oldTitle", JStr (YouTube.title (YouTube.snippet v)));
                ("newTitle", JStr (title st));
                ("descriptionChanged",
                 JBool (negb (description st
                              =? YouTube.description (YouTube.snippet v))%string))])
       ++ [SetTimeout 5000])
  | _, _ => (st, [])
  end.

(** The callback of the timer: [setSuccess('')]. *)
Definition clearSuccess (st : State) : State :=
  mkState (video st) (title st) (description st) (loading st) (saving st)
    (error st) "".

End Panel.

End VideoEditor.

(* ================================================================== *)
(** ** Opening and closing the editor of a note
       ([startEditing] and [cancelEditing] of [NotesSection.tsx])      *)
(* ================================================================== *)
Module NotesEditing.

Definition startEditing (note : Notes.Note) (st : Notes.State) : Notes.State :=
  Notes.mkState (Notes.notes st) (Notes.loading st) (Notes.error st)
    (Some (Notes.id note)) (Notes.content note) (Notes.newNote st)
    (Notes.adding st).

Definition cancelEditing (st : Notes.State) : Notes.State :=
  Notes.mkState (Notes.notes st) (Notes.loading st) (Notes.error st)
    None "" (Notes.newNote st) (Notes.adding st).

End NotesEditing.

(** The inserts into the event log a run issued: owner and event type,
    in order. *)
Fixpoint logged (effects : list Effect) : list (string * string) :=
  match effects with
  | [] => []
  | InsertEventLog owner event_type _ :: rest => (owner, event_type) :: logged rest
  | _ :: rest => logged rest
  end.

(** The calls a run made to the notes table of the store. *)
Definition is_notes_call (e : Effect) : bool :=
  match e with
  | SelectNotes _ _ | InsertNote _ _ _ | UpdateNote _ _ | DeleteNote _ => true
  | _ => false
  end.

Definition editor_proxy_call (e : VideoEditor.EditorEffect) : bool :=
  match e with
  | VideoEditor.Panel p => is_proxy_call p
  | _ => false
  end.

(** Scenarios for the panels. *)
Definition insert_refused (_ _ _ : string) : Notes.StoreReply Notes.Note :=
  Notes.StoreFailed permission_denied.

Definition select_two (_ _ : string) : Notes.StoreReply (option (list Notes.Note)) :=
  Notes.StoreOk (Some [note1; note2]).

Definition sample_video : YouTube.VideoDetails :=
  placeholder_video "abc123" "2025-07-20T05:44:06.000Z".

Definition resolves_undefined (_ : string)
  : Outcome (option YouTube.VideoDetails) := Returns None.

Definition card_idle : VideoCard.State := VideoCard.mkState None false "".

Definition editor_idle : VideoEditor.State :=
  VideoEditor.mkState None "" "" false false "" "".

Definition editor_dirty : VideoEditor.State :=
  VideoEditor.mkState (Some sample_video) "A better title"
    "A better description" false false "" "".

(* ================================================================== *)
(** * Properties                                                       *)
(* ================================================================== *)

(** ** The proxy function *)
Section ProxyFacts.
Import Proxy.
Local Open Scope proxy_scope.

Variable key : option string.
Variable cors : list (string * string).
Variable up : UpstreamRequest -> Outcome UpstreamResponse.

Lemma bind_throw {A B} (e : Exn) (k : A -> M B) :
  bind (throw e) k = throw e.
Proof. reflexivity. Qed.

Lemma bind_guard_pass {B} (msg : string) (k : unit -> M B) :
  bind (guard false msg) k = k tt.
Proof. unfold guard, bind, ret. destruct (k tt). reflexivity. Qed.

Lemma bind_guard_fail {B} (msg : string) (k : unit -> M B) :
  bind (guard true msg) k = throw (new_Error msg).
Proof. reflexivity. Qed.

Lemma bind_await_returns {A B} (a : A) (k : A -> M B) :
  bind (await (Returns a)) k = k a.
Proof. unfold await, bind. destruct (k a). reflexivity. Qed.

Lemma bind_await_throws {A B} (e : Exn) (k : A -> M B) :
  bind (await (Throws e)) k = throw e.
Proof. reflexivity. Qed.

(** The switch either throws before any upstream call, or issues
    exactly one call and hands back its outcome. *)
Lemma dispatch_shape (req : Request) (action videoId : option string) :
  (exists e, dispatch key up req action videoId = (Throws e, [])) \/
  (exists r, dispatch key up req action videoId = (up r, [r])).
Proof.
  unfold dispatch.
  repeat match goal with
         | |- context [if is_case ?a ?l then _ else _] => destruct (is_case a l)
         end;
    try (left; eexists; reflexivity);
    match goal with
    | |- context [guard (negb ?c) _] => destruct c
    end; cbn [negb];
    rewrite ?bind_guard_fail, ?bind_guard_pass;
    try (left; eexists; reflexivity);
    try (right; eexists; reflexivity);
    destruct (json req) as [parsed | e];
    rewrite ?bind_await_throws, ?bind_await_returns;
    try (left; eexists; reflexivity);
    destruct parsed; cbn [destructure];
    rewrite ?bind_await_throws, ?bind_await_returns;
    try (left; eexists; reflexivity);
    right; eexists; reflexivity.
Qed.

(** Past the key check, the upstream calls of a run are those of the
    switch: nothing after it calls out again. *)
Lemma handler_trace (req : Request) :
  nonempty key = true ->
  snd (try_catch (handler_try key cors up req) (handler_catch cors)) =
  snd (dispatch key up req
         (searchParams_get (searchParams req) "action")
         (searchParams_get (searchParams req) "videoId")).
Proof.
  intros Hkey. unfold handler_try. rewrite Hkey. cbn [negb].
  rewrite bind_guard_pass.
  destruct (dispatch_shape req
              (searchParams_get (searchParams req) "action")
              (searchParams_get (searchParams req) "videoId"))
    as [[e He] | [call Hcall]].
  - rewrite He. reflexivity.
  - rewrite Hcall.
    destruct (up call) as [answer | e]; [| reflexivity].
    unfold bind at 1.
    destruct (up_json answer) as [data | e]; [| reflexivity].
    rewrite bind_await_returns.
    destruct (up_ok answer); [reflexivity |].
    destruct data; reflexivity.
Qed.

(** A failure before the switch reaches [fetch] is answered with the
    envelope and leaves no upstream call. *)
Lemma handler_early_failure (req : Request) (e : Exn) :
  (method req =? "OPTIONS")%string = false ->
  nonempty key = true ->
  dispatch key up req
    (searchParams_get (searchParams req) "action")
    (searchParams_get (searchParams req) "videoId") = (Throws e, []) ->
  handler key cors up req = (Returns (envelope cors (message e)), []).
Proof.
  intros Hmethod Hkey Hd. unfold handler, handler_try.
  rewrite Hmethod, Hkey. cbn [negb]. rewrite bind_guard_pass, Hd.
  reflexivity.
Qed.

End ProxyFacts.

(** C3.  Every request that is not a preflight gets a response, and no
    exception leaves the handler: the response is either a 400 whose
    body is exactly [{error: <string>}], or a 200 whose body is the JSON
    value the upstream service answered with ([ok] response), unchanged. *)
Theorem handler_total_envelope_or_passthrough
  (key : option string) (cors : list (string * string))
  (up : Proxy.UpstreamRequest -> Outcome Proxy.UpstreamResponse)
  (req : Proxy.Request) :
  (Proxy.method req =? "OPTIONS")%string = false ->
  exists r trace,
    Proxy.handler key cors up req = (Returns r, trace) /\
    ((Proxy.status r = 400 /\
      exists msg, Proxy.body r = Some (JObj [("error", JStr msg)]))
     \/
     (Proxy.status r = 200 /\
      exists call answer data,
        trace = [call] /\ up call = Returns answer /\
        Proxy.up_ok answer = true /\ Proxy.up_json answer = Returns data /\
        Proxy.body r = Some data)).
Proof.
  intros Hmethod. unfold Proxy.handler. rewrite Hmethod.
  unfold Proxy.handler_try.
  destruct (nonempty key); cbn [negb].
  2:{ rewrite bind_guard_fail. cbn. do 2 eexists. split; [reflexivity|].
      left. split; [reflexivity|]. eexists; reflexivity. }
  rewrite bind_guard_pass.
  destruct (dispatch_shape key up req
              (searchParams_get (Proxy.searchParams req) "action")
              (searchParams_get (Proxy.searchParams req) "videoId"))
    as [[e He] | [call Hcall]].
  - rewrite He. cbn. do 2 eexists. split; [reflexivity|].
    left. split; [reflexivity|]. eexists; reflexivity.
  - rewrite Hcall.
    destruct (up call) as [answer | e] eqn:Hup.
    2:{ cbn. do 2 eexists. split; [reflexivity|].
        left. split; [reflexivity|]. eexists; reflexivity. }
    unfold Proxy.bind at 1.
    destruct (Proxy.up_json answer) as [data | e] eqn:Hjson.
    2:{ cbn. do 2 eexists. split; [reflexivity|].
        left. split; [reflexivity|]. eexists; reflexivity. }
    rewrite bind_await_returns.
    destruct (Proxy.up_ok answer) eqn:Hok.
    + cbn. do 2 eexists. split; [reflexivity|].
      right. split; [reflexivity|].
      exists call, answer, data. repeat split; assumption.
    + destruct data; cbn; do 2 eexists; (split; [reflexivity|]);
        left; (split; [reflexivity|]); eexists; reflexivity.
Qed.

Lemma handler_total_envelope_or_passthrough_witness :
  (Proxy.method (Proxy.mkRequest "GET"
     [("action", "video-details"); ("videoId", "abc123")] no_body)
   =? "OPTIONS")%string = false /\
  exists r trace,
    Proxy.handler (Some "KEY") [] accepting_upstream
      (Proxy.mkRequest "GET"
         [("action", "video-details"); ("videoId", "abc123")] no_body)
    = (Returns r, trace) /\
    ((Proxy.status r = 400 /\
      exists msg, Proxy.body r = Some (JObj [("error", JStr msg)]))
     \/
     (Proxy.status r = 200 /\
      exists call answer data,
        trace = [call] /\ accepting_upstream call = Returns answer /\
        Proxy.up_ok answer = true /\ Proxy.up_json answer = Returns data /\
        Proxy.body r = Some data)).
Proof.
  split; [reflexivity |].
  apply (handler_total_envelope_or_passthrough (Some "KEY") [] accepting_upstream
           (Proxy.mkRequest "GET"
              [("action", "video-details"); ("videoId", "abc123")] no_body)).
  reflexivity.
Defined.

(** C5.  Without a configured API key (unset, or set to the empty
    string) every request is answered 400 "YouTube API key not
    configured" and no upstream call is made; only the preflight request
    is answered with the empty success carrying the cross-origin headers. *)
Theorem missing_key_rejects_everything_but_preflight
  (key : option string) (cors : list (string * string))
  (up : Proxy.UpstreamRequest -> Outcome Proxy.UpstreamResponse)
  (req : Proxy.Request) :
  nonempty key = false ->
  Proxy.handler key cors up req =
  if (Proxy.method req =? "OPTIONS")%string
  then (Returns (Proxy.mkResponse 200 cors None), [])
  else (Returns (envelope cors "YouTube API key not configured"), []).
Proof.
  intros Hkey. unfold Proxy.handler, Proxy.handler_try.
  destruct (Proxy.method req =? "OPTIONS")%string; [reflexivity |].
  rewrite Hkey. reflexivity.
Qed.

Lemma missing_key_rejects_everything_but_preflight_witness :
  nonempty None = false /\
  Proxy.handler None [("Access-Control-Allow-Origin", "*")] accepting_upstream
    (Proxy.mkRequest "DELETE"
       [("action", "delete-comment"); ("commentId", "c1")]
       (Returns (JObj [("accessToken", JStr "token")])))
  = (Returns (envelope [("Access-Control-Allow-Origin", "*")]
                "YouTube API key not configured"), []).
Proof.
  split; [reflexivity |].
  apply (missing_key_rejects_everything_but_preflight None
           [("Access-Control-Allow-Origin", "*")] accepting_upstream
           (Proxy.mkRequest "DELETE"
              [("action", "delete-comment"); ("commentId", "c1")]
              (Returns (JObj [("accessToken", JStr "token")])))).
  reflexivity.
Defined.

(** C4, as stated, fails: a preflight naming [post-comment] carries a
    method other than POST and is answered with the empty success, and
    without a configured key a GET naming [post-comment] is answered
    with the configuration message; neither answer names the method. *)
Lemma wrong_method_not_always_named :
  Proxy.method preflight_post_comment <> "POST" /\
  ~ answers_400_with
      (Proxy.handler (Some "KEY") [] unreachable_upstream preflight_post_comment)
      "POST method required" /\
  Proxy.method get_post_comment <> "POST" /\
  ~ answers_400_with
      (Proxy.handler None [] unreachable_upstream get_post_comment)
      "POST method required".
Proof.
  repeat split; try discriminate;
    intros (r & trace & Hrun & Hstatus & Hbody);
    vm_compute in Hrun; inversion Hrun; subst r;
    cbn in Hstatus, Hbody; discriminate.
Qed.

(** C4, amended.  With the API key configured, a request for one of
    the three mutating actions (post-comment, delete-comment,
    update-video) whose method is neither the required one nor OPTIONS
    is answered 400 with "<METHOD> method required", before any upstream
    call. *)
Theorem wrong_method_names_required_method
  (key : option string) (cors : list (string * string))
  (up : Proxy.UpstreamRequest -> Outcome Proxy.UpstreamResponse)
  (req : Proxy.Request) :
  nonempty key = true ->
  (Proxy.method req =? "OPTIONS")%string = false ->
  (searchParams_get (Proxy.searchParams req) "action" = Some "post-comment" ->
   Proxy.method req <> "POST" ->
   Proxy.handler key cors up req =
   (Returns (envelope cors "POST method required"), []))
  /\
  (searchParams_get (Proxy.searchParams req) "action" = Some "delete-comment" ->
   Proxy.method req <> "DELETE" ->
   Proxy.handler key cors up req =
   (Returns (envelope cors "DELETE method required"), []))
  /\
  (searchParams_get (Proxy.searchParams req) "action" = Some "update-video" ->
   Proxy.method req <> "PUT" ->
   Proxy.handler key cors up req =
   (Returns (envelope cors "PUT method required"), [])).
Proof.
  intros Hkey Hopt.
  repeat split; intros Haction Hmethod;
    apply String.eqb_neq in Hmethod;
    apply (handler_early_failure key cors up req (new_Error _) Hopt Hkey);
    rewrite Haction; unfold Proxy.dispatch; cbn [is_case String.eqb Ascii.eqb Bool.eqb];
    rewrite Hmethod; reflexivity.
Qed.

Lemma wrong_method_names_required_method_witness :
  nonempty (Some "KEY") = true /\
  (Proxy.method get_post_comment =? "OPTIONS")%string = false /\
  searchParams_get (Proxy.searchParams get_post_comment) "action"
    = Some "post-comment" /\
  Proxy.method get_post_comment <> "POST" /\
  Proxy.handler (Some "KEY") [] unreachable_upstream get_post_comment =
  (Returns (envelope [] "POST method required"), []).
Proof.
  assert (Hm : Proxy.method get_post_comment <> "POST") by discriminate.
  split; [reflexivity |]. split; [reflexivity |].
  split; [reflexivity |]. split; [exact Hm |].
  exact (proj1 (wrong_method_names_required_method (Some "KEY") []
                  unreachable_upstream get_post_comment eq_refl eq_refl)
           eq_refl Hm).
Defined.

(** C2.  The handler does not check the identifier parameter of the
    three writes.  With the key configured, the right method and a
    well-formed body, a request without [videoId] (or [commentId]) is
    forwarded upstream with [null] in the identifier's place; an
    upstream that accepts the call makes the proxy answer 200. *)
Theorem missing_identifier_is_forwarded
  (cors : list (string * string))
  (up : Proxy.UpstreamRequest -> Outcome Proxy.UpstreamResponse) :
  snd (Proxy.handler (Some "KEY") cors up post_without_videoId) =
    [Proxy.mkUpstream
       "https://www.googleapis.com/youtube/v3/commentThreads?part=snippet"
       "POST"
       [("Authorization", "Bearer token"); ("Content-Type", "application/json")]
       (Some (JObj [("snippet", JObj
          [("videoId", JNull);
           ("topLevelComment", JObj
              [("snippet", JObj [("textOriginal", JStr "nice video!")])])])]))]
  /\
  snd (Proxy.handler (Some "KEY") cors up put_without_videoId) =
    [Proxy.mkUpstream
       "https://www.googleapis.com/youtube/v3/videos?part=snippet"
       "PUT"
       [("Authorization", "Bearer token"); ("Content-Type", "application/json")]
       (Some (JObj [("id", JNull);
                    ("snippet", JObj [("title", JStr "t");
                                      ("description", JStr "d");
                                      ("categoryId", JStr "22")])]))]
  /\
  snd (Proxy.handler (Some "KEY") cors up delete_without_commentId) =
    [Proxy.mkUpstream
       "https://www.googleapis.com/youtube/v3/comments?id=null"
       "DELETE"
       [("Authorization", "Bearer token")]
       None]
  /\
  fst (Proxy.handler (Some "KEY") cors accepting_upstream post_without_videoId) =
    Returns (Proxy.mkResponse 200 (Proxy.json_headers cors) (Some (JObj []))).
Proof.
  assert (Htrace : forall r, (Proxy.method r =? "OPTIONS")%string = false ->
            snd (Proxy.handler (Some "KEY") cors up r) =
            snd (Proxy.dispatch (Some "KEY") up r
                   (searchParams_get (Proxy.searchParams r) "action")
                   (searchParams_get (Proxy.searchParams r) "videoId"))).
  { intros r Hr. unfold Proxy.handler. rewrite Hr.
    apply handler_trace. reflexivity. }
  split; [rewrite Htrace by reflexivity; reflexivity |].
  split; [rewrite Htrace by reflexivity; reflexivity |].
  split; [rewrite Htrace by reflexivity; reflexivity |].
  reflexivity.
Qed.


Lemma nonempty_Some (k : string) : k <> "" -> nonempty (Some k) = true.
Proof.
  intros Hk. unfold nonempty. apply String.eqb_neq in Hk. rewrite Hk. reflexivity.
Qed.








(** ** The browser-side client *)

(** What [makeYouTubeRequest] does with a rejected [fetch]: the mock
    value when the rejection is a TypeError mentioning [fetch], the
    rejection itself otherwise. *)
Lemma makeYouTubeRequest_rejected
  (url anon : string)
  (fetch : YouTube.ProxyCall -> Outcome YouTube.ProxyResponse)
  (now : string) (params : list (string * string))
  (options : YouTube.RequestInit) (e : Exn) :
  fetch (YouTube.proxy_call url anon params options) = Throws e ->
  YouTube.makeYouTubeRequest url anon fetch now params options =
  if YouTube.is_fetch_failure e then Returns (YouTube.getMockData now params)
  else Throws e.
Proof.
  intros Hfetch. unfold YouTube.makeYouTubeRequest, YouTube.request_try.
  rewrite Hfetch. reflexivity.
Qed.

(** Outside the two reads the mock value is the empty list. *)
Lemma getMockData_default (now : string) (params : list (string * string)) :
  is_case (searchParams_get params "action") "video-details" = false ->
  is_case (searchParams_get params "action") "comments" = false ->
  YouTube.getMockData now params = empty_items.
Proof.
  intros H1 H2. unfold YouTube.getMockData. rewrite H1, H2. reflexivity.
Qed.

(** C1, as stated, fails: with the proxy unreachable and the browser
    reporting "Failed to fetch", [postComment] does not reject; it
    resolves to the mock value [{items: []}]. *)
Lemma mutating_call_gets_a_fallback :
  unreachable (offline failed_to_fetch) failed_to_fetch /\
  YouTube.postComment "https://project.supabase.co" "anon"
    (offline failed_to_fetch) "2025-07-20T05:44:06.000Z"
    "abc123" "nice video!" "token" = Returns empty_items /\
  YouTube.postComment "https://project.supabase.co" "anon"
    (offline failed_to_fetch) "2025-07-20T05:44:06.000Z"
    "abc123" "nice video!" "token" <> Throws failed_to_fetch.
Proof.
  split; [intros call; reflexivity |].
  split; [reflexivity | discriminate].
Qed.

(** C1, amended.  When the proxy is unreachable, each mutating client
    call (postComment, deleteComment, updateVideo) propagates the
    failure unless it is a TypeError whose message contains "fetch"; in
    that case it resolves to the mock value [{items: []}].  Placeholder
    items are synthesized only for video-details and comments. *)
Theorem mutating_calls_on_transport_failure
  (url anon : string)
  (fetch : YouTube.ProxyCall -> Outcome YouTube.ProxyResponse)
  (now : string) (e : Exn) :
  unreachable fetch e ->
  (forall videoId text accessToken,
     YouTube.postComment url anon fetch now videoId text accessToken =
     if YouTube.is_fetch_failure e then Returns empty_items else Throws e)
  /\
  (forall commentId accessToken,
     YouTube.deleteComment url anon fetch now commentId accessToken =
     if YouTube.is_fetch_failure e then Returns empty_items else Throws e)
  /\
  (forall videoId title description accessToken,
     YouTube.updateVideo url anon fetch now videoId title description accessToken =
     if YouTube.is_fetch_failure e then Returns empty_items else Throws e)
  /\
  (forall params,
     YouTube.getMockData now params <> empty_items ->
     searchParams_get params "action" = Some "video-details" \/
     searchParams_get params "action" = Some "comments").
Proof.
  intros Hdown.
  split; [| split; [| split]].
  - intros. unfold YouTube.postComment.
    rewrite (makeYouTubeRequest_rejected _ _ _ _ _ _ e (Hdown _)). reflexivity.
  - intros. unfold YouTube.deleteComment.
    rewrite (makeYouTubeRequest_rejected _ _ _ _ _ _ e (Hdown _)). reflexivity.
  - intros. unfold YouTube.updateVideo.
    rewrite (makeYouTubeRequest_rejected _ _ _ _ _ _ e (Hdown _)). reflexivity.
  - intros params Hne.
    destruct (searchParams_get params "action") as [a |] eqn:Ha.
    + destruct (String.eqb_spec a "video-details") as [-> | Hd]; [auto |].
      destruct (String.eqb_spec a "comments") as [-> | Hc]; [auto |].
      exfalso. apply Hne. apply getMockData_default; rewrite Ha; cbn [is_case].
      * apply String.eqb_neq. exact Hd.
      * apply String.eqb_neq. exact Hc.
    + exfalso. apply Hne. apply getMockData_default; rewrite Ha; reflexivity.
Qed.

Lemma mutating_calls_on_transport_failure_witness :
  unreachable (offline load_failed) load_failed /\
  YouTube.deleteComment "https://project.supabase.co" "anon"
    (offline load_failed) "2025-07-20T05:44:06.000Z" "c1" "token"
  = Throws load_failed.
Proof.
  assert (Hdown : unreachable (offline load_failed) load_failed)
    by (intros call; reflexivity).
  split; [exact Hdown |].
  exact (proj1 (proj2 (mutating_calls_on_transport_failure
                         "https://project.supabase.co" "anon"
                         (offline load_failed) "2025-07-20T05:44:06.000Z"
                         load_failed Hdown)) "c1" "token").
Defined.

(** On an unreachable proxy [getVideoDetails] gives the placeholder
    video when the failure passes the test of the [catch] block. *)
Lemma video_details_placeholder
  (url anon : string)
  (fetch : YouTube.ProxyCall -> Outcome YouTube.ProxyResponse)
  (now : string) (e : Exn) (videoId : string) :
  unreachable fetch e ->
  YouTube.is_fetch_failure e = true ->
  exists v,
    YouTube.getVideoDetails url anon fetch now videoId = Returns (Some v) /\
    YouTube.as_VideoDetails v = Some (placeholder_video videoId now) /\
    YouTube.id (placeholder_video videoId now) = videoId /\
    YouTube.privacyStatus (YouTube.status (placeholder_video videoId now))
      = "public".
Proof.
  intros Hdown Hfetch. unfold YouTube.getVideoDetails.
  rewrite (makeYouTubeRequest_rejected _ _ _ _ _ _ e (Hdown _)), Hfetch.
  eexists. split; [reflexivity |].
  split; [reflexivity |]. split; reflexivity.
Qed.

(** C8.  The fallback of [getVideoDetails] hangs on the wording of the
    failure.  For every [videoId], with the proxy unreachable the call
    resolves to the fully populated placeholder (its [id] the requested
    [videoId], its privacy status "public") when the failure is a
    TypeError whose message contains "fetch", and rejects with the
    failure otherwise; a browser that reports the unreachable proxy as
    "Load failed" therefore gets no placeholder. *)
Theorem video_details_fallback_hangs_on_the_message
  (url anon now videoId : string) :
  (forall e,
     exists v,
       YouTube.as_VideoDetails v = Some (placeholder_video videoId now) /\
       YouTube.getVideoDetails url anon (offline e) now videoId =
       if YouTube.is_fetch_failure e then Returns (Some v) else Throws e)
  /\
  YouTube.id (placeholder_video videoId now) = videoId /\
  YouTube.privacyStatus (YouTube.status (placeholder_video videoId now))
    = "public" /\
  unreachable (offline load_failed) load_failed /\
  YouTube.getVideoDetails url anon (offline load_failed) now videoId
  = Throws load_failed.
Proof.
  assert (Hrun : forall e,
            YouTube.getVideoDetails url anon (offline e) now videoId =
            YouTube.bind
              (if YouTube.is_fetch_failure e
               then Returns (YouTube.getMockData now
                               [("action", "video-details"); ("videoId", videoId)])
               else Throws e)
              (fun data =>
                 YouTube.bind (get_prop (Some data) "items") YouTube.index0)).
  { intros e. unfold YouTube.getVideoDetails.
    rewrite (makeYouTubeRequest_rejected url anon (offline e) now _ _ e eq_refl).
    reflexivity. }
  split; [| split; [reflexivity | split; [reflexivity | split]]].
  - intros e. eexists. split; [| rewrite Hrun].
    2:{ destruct (YouTube.is_fetch_failure e); reflexivity. }
    reflexivity.
  - intros call. reflexivity.
  - rewrite Hrun. reflexivity.
Qed.

(** C9.  [getVideoDetails] takes [items[0]] without looking at the
    length: whenever the request resolves to a value whose [items] is
    the empty list, the call resolves to [undefined].  That case is
    reached by a proxy answering success with [{items: []}]; the default
    value of [getMockData] has the same shape. *)
Theorem video_details_of_empty_items_is_undefined
  (url anon : string)
  (fetch : YouTube.ProxyCall -> Outcome YouTube.ProxyResponse)
  (now : string) (videoId : string) :
  (forall data,
     YouTube.makeYouTubeRequest url anon fetch now
       [("action", "video-details"); ("videoId", videoId)] YouTube.no_options
     = Returns data ->
     get_own data "items" = Some (JArr []) ->
     YouTube.getVideoDetails url anon fetch now videoId = Returns None)
  /\
  YouTube.getVideoDetails url anon answers_no_items now videoId = Returns None
  /\
  (forall params,
     is_case (searchParams_get params "action") "video-details" = false ->
     is_case (searchParams_get params "action") "comments" = false ->
     YouTube.bind (get_prop (Some (YouTube.getMockData now params)) "items")
       YouTube.index0 = Returns None).
Proof.
  split; [| split].
  - intros data Hreq Hitems. unfold YouTube.getVideoDetails.
    rewrite Hreq. cbn [YouTube.bind].
    destruct data; try discriminate Hitems.
    cbn [get_prop]. rewrite Hitems. reflexivity.
  - reflexivity.
  - intros params H1 H2. rewrite (getMockData_default now params H1 H2).
    reflexivity.
Qed.

Lemma video_details_of_empty_items_is_undefined_witness :
  YouTube.makeYouTubeRequest "https://project.supabase.co" "anon"
    answers_no_items "2025-07-20T05:44:06.000Z"
    [("action", "video-details"); ("videoId", "unknown-id")] YouTube.no_options
  = Returns empty_items /\
  get_own empty_items "items" = Some (JArr []) /\
  YouTube.getVideoDetails "https://project.supabase.co" "anon"
    answers_no_items "2025-07-20T05:44:06.000Z" "unknown-id" = Returns None.
Proof.
  split; [reflexivity |]. split; [reflexivity |].
  exact (proj1 (video_details_of_empty_items_is_undefined
                  "https://project.supabase.co" "anon"
                  answers_no_items "2025-07-20T05:44:06.000Z" "unknown-id")
           empty_items eq_refl eq_refl).
Defined.

(** ** The notes panel *)

Lemma nth_error_replace {A} (f : A -> A) (l : list A) (i : nat) (x : A) :
  nth_error l i = Some x -> nth_error (map f l) i = Some (f x).
Proof.
  revert i. induction l as [| a l IH]; intros [| i] H; try discriminate.
  - injection H as ->. reflexivity.
  - cbn in *. auto.
Qed.

Lemma filter_keeps_others {A} (p : A -> bool) (l : list A) (x : A) :
  In x (filter p l) <-> In x l /\ p x = true.
Proof. apply filter_In. Qed.

(** C6.  Whatever the panel holds: a successful add puts the row the
    store returned in front of the old sequence; a successful edit of
    note [n] puts the returned row at every position that held a note of
    id [n] and leaves the other positions alone; a successful delete of
    [n] keeps, in order, the notes whose id is not [n]; and when the
    store fails, the sequence and every other cell stay as they were,
    the error text is set (and the in-flight flag of the add is down). *)
Theorem notes_sequence_follows_the_store
  (trim : string -> string) (videoId : string) (user : option User)
  (insert_event : string -> string -> JSON -> Outcome unit)
  (store_insert : string -> string -> string -> Notes.StoreReply Notes.Note)
  (store_update : string -> string -> Notes.StoreReply Notes.Note)
  (store_delete : string -> Notes.StoreReply unit)
  (confirm : string -> bool)
  (n : string) (st : Notes.State) :
  (forall u, user = Some u -> trim (Notes.newNote st) <> "" ->
     let st' := fst (Notes.handleAddNote trim videoId user insert_event store_insert st) in
     (forall row,
        store_insert (user_id u) videoId (trim (Notes.newNote st)) = Notes.StoreOk row ->
        Notes.notes st' = row :: Notes.notes st /\ Notes.error st' = Notes.error st)
     /\
     (forall err,
        store_insert (user_id u) videoId (trim (Notes.newNote st)) = Notes.StoreFailed err ->
        st' = Notes.mkState (Notes.notes st) (Notes.loading st)
                (Notes.error_text err "Failed to add note")
                (Notes.editingNote st) (Notes.editContent st) (Notes.newNote st)
                false))
  /\
  (trim (Notes.editContent st) <> "" ->
     let st' := fst (Notes.handleEditNote trim videoId user insert_event store_update n st) in
     (forall row,
        store_update n (trim (Notes.editContent st)) = Notes.StoreOk row ->
        length (Notes.notes st') = length (Notes.notes st) /\
        (forall i note,
           nth_error (Notes.notes st) i = Some note ->
           (Notes.id note = n -> nth_error (Notes.notes st') i = Some row) /\
           (Notes.id note <> n -> nth_error (Notes.notes st') i = Some note)) /\
        Notes.error st' = Notes.error st)
     /\
     (forall err,
        store_update n (trim (Notes.editContent st)) = Notes.StoreFailed err ->
        st' = Notes.mkState (Notes.notes st) (Notes.loading st)
                (Notes.error_text err "Failed to update note")
                (Notes.editingNote st) (Notes.editContent st) (Notes.newNote st)
                (Notes.adding st)))
  /\
  (confirm "Are you sure you want to delete this note?" = true ->
     let st' := fst (Notes.handleDeleteNote videoId user insert_event store_delete
                       confirm n st) in
     (store_delete n = Notes.StoreOk tt ->
      Notes.notes st' =
        filter (fun note => negb (Notes.id note =? n)%string) (Notes.notes st) /\
      (forall note,
         In note (Notes.notes st') <-> In note (Notes.notes st) /\ Notes.id note <> n) /\
      Notes.error st' = Notes.error st)
     /\
     (forall err,
        store_delete n = Notes.StoreFailed err ->
        st' = Notes.mkState (Notes.notes st) (Notes.loading st)
                (Notes.error_text err "Failed to delete note")
                (Notes.editingNote st) (Notes.editContent st) (Notes.newNote st)
                (Notes.adding st))).
Proof.
  split; [| split].
  - intros u -> Hblank st'. subst st'. unfold Notes.handleAddNote.
    apply String.eqb_neq in Hblank. rewrite Hblank.
    split.
    + intros row ->. split; reflexivity.
    + intros err ->. reflexivity.
  - intros Hblank st'. subst st'. unfold Notes.handleEditNote.
    apply String.eqb_neq in Hblank. rewrite Hblank.
    split.
    + intros row ->. cbn [fst Notes.notes Notes.error].
      split; [apply length_map |]. split; [| reflexivity].
      intros i note Hnth.
      rewrite (nth_error_replace _ _ _ _ Hnth).
      split; intros Hid.
      * apply String.eqb_eq in Hid. rewrite Hid. reflexivity.
      * apply String.eqb_neq in Hid. rewrite Hid. reflexivity.
    + intros err ->. reflexivity.
  - intros Hyes st'. subst st'. unfold Notes.handleDeleteNote.
    rewrite Hyes. cbn [negb].
    split.
    + intros ->. cbn [fst Notes.notes Notes.error].
      split; [reflexivity |]. split; [| reflexivity].
      intros note. rewrite filter_keeps_others.
      rewrite negb_true_iff, String.eqb_neq. reflexivity.
    + intros err ->. reflexivity.
Qed.

Lemma notes_sequence_follows_the_store_witness :
  trim_latin1 (Notes.newNote notes_ready) <> "" /\
  trim_latin1 (Notes.editContent notes_ready) <> "" /\
  always_yes "Are you sure you want to delete this note?" = true /\
  Notes.notes (fst (Notes.handleAddNote trim_latin1 "abc123" (Some alice) log_ok
                      insert_accepted notes_ready))
  = [inserted_row; note1; note2] /\
  nth_error (Notes.notes (fst (Notes.handleEditNote trim_latin1 "abc123" (Some alice) log_ok
                                 update_accepted "n1" notes_ready))) 0
  = Some updated_row /\
  fst (Notes.handleDeleteNote "abc123" (Some alice) log_ok delete_refused
         always_yes "n1" notes_ready)
  = Notes.mkState [note1; note2] false
      "new row violates row-level security policy"
      (Some "n1") "shorten the intro " " improve pacing" false.
Proof.
  assert (Hnew : trim_latin1 (Notes.newNote notes_ready) <> "")
    by (vm_compute; discriminate).
  assert (Hedit : trim_latin1 (Notes.editContent notes_ready) <> "")
    by (vm_compute; discriminate).
  destruct (notes_sequence_follows_the_store trim_latin1 "abc123" (Some alice) log_ok
              insert_accepted update_accepted delete_refused always_yes
              "n1" notes_ready) as [Hadd [Hupd Hdel]].
  split; [exact Hnew |]. split; [exact Hedit |]. split; [reflexivity |].
  split; [| split].
  - exact (proj1 (proj1 (Hadd alice eq_refl Hnew) inserted_row eq_refl)).
  - exact (proj1 (proj1 (proj2 (proj1 (Hupd Hedit) updated_row eq_refl))
                    0%nat note1 eq_refl) eq_refl).
  - exact (proj2 (Hdel eq_refl) permission_denied eq_refl).
Defined.

(** ** The comments panel *)

(** C7, as stated, fails: both handlers of the comments panel make an
    insert into the event log of the store, which is a network call. *)
Lemma comment_handlers_write_to_the_store :
  trim_latin1 (Comments.newComment comments_ready) <> "" /\
  existsb is_network
    (snd (Comments.handlePostComment trim_latin1 "abc123" (Some alice) log_ok
            "1753000000000" "2025-07-20T08:26:40.000Z" comments_ready)) = true /\
  existsb is_network
    (snd (Comments.handleDeleteComment "abc123" (Some alice) log_ok
            "mock-1753000000000" comments_ready)) = true.
Proof.
  split; [vm_compute; discriminate |]. split; reflexivity.
Qed.

Lemma prefix_of_append (s t : string) : String.prefix s (s ++ t) = true.
Proof.
  induction s as [| c s IH]; cbn.
  - destruct t; reflexivity.
  - destruct (ascii_dec c c) as [_ | Hc]; [exact IH | contradiction].
Qed.

Lemma logEvent_effects (user : option User)
  (insert_event : string -> string -> JSON -> Outcome unit)
  (eventType : string) (eventData : JSON) :
  no_proxy_call (EventLogger.logEvent user insert_event eventType eventData) /\
  filter is_network (EventLogger.logEvent user insert_event eventType eventData) =
  match user with
  | Some u => [InsertEventLog (user_id u) eventType eventData]
  | None => []
  end.
Proof.
  unfold no_proxy_call, EventLogger.logEvent.
  destruct user as [u |]; [| split; [constructor | reflexivity]].
  destruct (insert_event (user_id u) eventType eventData);
    split; repeat constructor.
Qed.

(** C7, amended.  For every non-blank comment text and signed-in user
    the post handler puts in front of the sequence a synthetic comment
    whose identifier is "mock-" followed by the clock reading, with the
    given text, like count 0 and reply count 0; the delete handler
    keeps, in order, exactly the comments whose identifier is not the
    given one.  Neither handler calls the proxy or sets the error text;
    the only network call of either is its insert into the event log
    (with nobody signed in, the delete handler makes none). *)
Theorem comment_handlers_are_local
  (trim : string -> string) (videoId : string) (user : option User)
  (insert_event : string -> string -> JSON -> Outcome unit)
  (now_ms : string) (now_iso : string) (st : Comments.State) :
  (forall u, user = Some u -> trim (Comments.newComment st) <> "" ->
     let run := Comments.handlePostComment trim videoId user insert_event
                  now_ms now_iso st in
     exists mock,
       Comments.comments (fst run) = mock :: Comments.comments st /\
       Comments.id mock = "mock-" ++ now_ms /\
       String.prefix "mock-" (Comments.id mock) = true /\
       Comments.textDisplay
         (Comments.tl_snippet (Comments.topLevelComment (Comments.snippet mock)))
       = Comments.newComment st /\
       Comments.likeCount
         (Comments.tl_snippet (Comments.topLevelComment (Comments.snippet mock)))
       = 0 /\
       Comments.totalReplyCount (Comments.snippet mock) = 0 /\
       Comments.error (fst run) = Comments.error st /\
       no_proxy_call (snd run) /\
       filter is_network (snd run) =
         [InsertEventLog (user_id u) "comment_attempted"
            (JObj [("videoId", JStr videoId);
                   ("commentText", JStr (Comments.newComment st))])])
  /\
  (forall commentId,
     let run := Comments.handleDeleteComment videoId user insert_event
                  commentId st in
     Comments.comments (fst run) =
       filter (fun c => negb (Comments.id c =? commentId)%string)
         (Comments.comments st) /\
     (forall c, In c (Comments.comments (fst run)) <->
                In c (Comments.comments st) /\ Comments.id c <> commentId) /\
     Comments.error (fst run) = Comments.error st /\
     no_proxy_call (snd run) /\
     filter is_network (snd run) =
       match user with
       | Some u => [InsertEventLog (user_id u) "comment_deleted"
                      (JObj [("videoId", JStr videoId);
                             ("commentId", JStr commentId)])]
       | None => []
       end).
Proof.
  split.
  - intros u -> Hblank run. subst run. unfold Comments.handlePostComment.
    apply String.eqb_neq in Hblank. rewrite Hblank.
    eexists. cbn [fst snd Comments.comments Comments.error].
    split; [reflexivity |]. split; [reflexivity |].
    split; [apply prefix_of_append |].
    split; [reflexivity |]. split; [reflexivity |]. split; [reflexivity |].
    split; [reflexivity |].
    destruct (logEvent_effects (Some u) insert_event "comment_attempted"
                (JObj [("videoId", JStr videoId);
                       ("commentText", JStr (Comments.newComment st))]))
      as [Hlocal Hnet].
    split.
    + constructor; [reflexivity | exact Hlocal].
    + unfold Comments.logEvent. cbn [filter is_network]. exact Hnet.
  - intros commentId run. subst run. unfold Comments.handleDeleteComment.
    cbn [fst snd Comments.comments Comments.error].
    split; [reflexivity |]. split.
    { intros c. rewrite filter_keeps_others.
      rewrite negb_true_iff, String.eqb_neq. reflexivity. }
    split; [reflexivity |].
    destruct (logEvent_effects user insert_event "comment_deleted"
                (JObj [("videoId", JStr videoId);
                       ("commentId", JStr commentId)]))
      as [Hlocal Hnet].
    split.
    + constructor; [reflexivity | exact Hlocal].
    + unfold Comments.logEvent. cbn [filter is_network]. exact Hnet.
Qed.

Lemma comment_handlers_are_local_witness :
  trim_latin1 (Comments.newComment comments_ready) <> "" /\
  exists mock,
    Comments.comments
      (fst (Comments.handlePostComment trim_latin1 "abc123" (Some alice) log_ok
              "1753000000000" "2025-07-20T08:26:40.000Z" comments_ready))
    = [mock; sample_comment] /\
    Comments.id mock = "mock-1753000000000".
Proof.
  assert (Hblank : trim_latin1 (Comments.newComment comments_ready) <> "")
    by (vm_compute; discriminate).
  split; [exact Hblank |].
  destruct (proj1 (comment_handlers_are_local trim_latin1 "abc123" (Some alice) log_ok
                     "1753000000000" "2025-07-20T08:26:40.000Z" comments_ready)
              alice eq_refl Hblank)
    as (mock & Hseq & Hid & _).
  exists mock. split; [exact Hseq | exact Hid].
Defined.

(* ================================================================== *)
(** * Further properties of the code                                   *)
(* ================================================================== *)

(** ** The proxy function: validation, upstream failures, headers *)

(** A run that left an upstream call went past the preflight branch and
    the key check, and the call is the one the switch issued. *)
Lemma handler_reached_upstream
  (key : option string) (cors : list (string * string))
  (up : Proxy.UpstreamRequest -> Outcome Proxy.UpstreamResponse)
  (req : Proxy.Request) (call : Proxy.UpstreamRequest) :
  snd (Proxy.handler key cors up req) = [call] ->
  (Proxy.method req =? "OPTIONS")%string = false /\
  nonempty key = true /\
  Proxy.dispatch key up req
    (searchParams_get (Proxy.searchParams req) "action")
    (searchParams_get (Proxy.searchParams req) "videoId") = (up call, [call]).
Proof.
  intros Htrace.
  destruct (Proxy.method req =? "OPTIONS")%string eqn:Hm.
  { unfold Proxy.handler in Htrace. rewrite Hm in Htrace. discriminate Htrace. }
  destruct (nonempty key) eqn:Hkey.
  2:{ unfold Proxy.handler, Proxy.handler_try in Htrace.
      rewrite Hm, Hkey in Htrace. discriminate Htrace. }
  split; [reflexivity |]. split; [reflexivity |].
  unfold Proxy.handler in Htrace. rewrite Hm in Htrace.
  rewrite (handler_trace key cors up req Hkey) in Htrace.
  destruct (dispatch_shape key up req
              (searchParams_get (Proxy.searchParams req) "action")
              (searchParams_get (Proxy.searchParams req) "videoId"))
    as [[e He] | [r Hr]].
  - rewrite He in Htrace. discriminate Htrace.
  - rewrite Hr in Htrace. cbn [snd] in Htrace. injection Htrace as ->.
    exact Hr.
Qed.

(** What becomes of a run once the switch has issued its call. *)
Lemma handler_settles
  (key : option string) (cors : list (string * string))
  (up : Proxy.UpstreamRequest -> Outcome Proxy.UpstreamResponse)
  (req : Proxy.Request) (call : Proxy.UpstreamRequest) :
  snd (Proxy.handler key cors up req) = [call] ->
  Proxy.handler key cors up req =
  (Returns
     match up call with
     | Throws e => envelope cors (message e)
     | Returns answer =>
         match Proxy.up_json answer with
         | Throws e => envelope cors (message e)
         | Returns data =>
             if Proxy.up_ok answer
             then Proxy.mkResponse 200 (Proxy.json_headers cors) (Some data)
             else
               match get_prop (Some data) "error" with
               | Throws e => envelope cors (message e)
               | Returns err =>
                   envelope cors
                     (ToString_val
                        (or_else (get_prop_opt err "message")
                           (Some (JStr "YouTube API error"))))
               end
         end
     end,
   [call]).
Proof.
  intros Htrace.
  destruct (handler_reached_upstream key cors up req call Htrace)
    as (Hm & Hkey & Hd).
  unfold Proxy.handler, Proxy.handler_try. rewrite Hm, Hkey. cbn [negb].
  rewrite bind_guard_pass, Hd.
  destruct (up call) as [answer | e]; [| reflexivity].
  unfold Proxy.bind at 1.
  destruct (Proxy.up_json answer) as [data | e]; [| reflexivity].
  rewrite bind_await_returns.
  destruct (Proxy.up_ok answer); [reflexivity |].
  destruct data; reflexivity.
Qed.

(** X1.  With the key configured, a request for [video-details] or
    [comments] whose [videoId] is missing or empty is answered 400
    "Video ID is required", and nothing is sent upstream. *)
Theorem read_without_videoId_is_rejected
  (key : option string) (cors : list (string * string))
  (up : Proxy.UpstreamRequest -> Outcome Proxy.UpstreamResponse)
  (req : Proxy.Request) :
  nonempty key = true ->
  (Proxy.method req =? "OPTIONS")%string = false ->
  searchParams_get (Proxy.searchParams req) "action" = Some "video-details" \/
  searchParams_get (Proxy.searchParams req) "action" = Some "comments" ->
  nonempty (searchParams_get (Proxy.searchParams req) "videoId") = false ->
  Proxy.handler key cors up req =
  (Returns (envelope cors "Video ID is required"), []).
Proof.
  intros Hkey Hm Haction Hvid.
  apply (handler_early_failure key cors up req (new_Error _) Hm Hkey).
  destruct Haction as [-> | ->]; unfold Proxy.dispatch;
    cbn [is_case String.eqb Ascii.eqb Bool.eqb]; rewrite Hvid; reflexivity.
Qed.

Lemma read_without_videoId_is_rejected_witness :
  nonempty (Some "KEY") = true /\
  (Proxy.method (Proxy.mkRequest "GET" [("action", "comments"); ("videoId", "")]
                   no_body) =? "OPTIONS")%string = false /\
  Proxy.handler (Some "KEY") [] accepting_upstream
    (Proxy.mkRequest "GET" [("action", "comments"); ("videoId", "")] no_body)
  = (Returns (envelope [] "Video ID is required"), []).
Proof.
  split; [reflexivity |]. split; [reflexivity |].
  exact (read_without_videoId_is_rejected (Some "KEY") [] accepting_upstream
           (Proxy.mkRequest "GET" [("action", "comments"); ("videoId", "")] no_body)
           eq_refl eq_refl (or_intror eq_refl) eq_refl).
Defined.

(** X2.  With the key configured, a request whose [action] is missing
    or is none of the five known ones is answered 400 "Invalid action",
    whatever its method and body, and nothing is sent upstream. *)
Theorem unknown_action_is_rejected
  (key : option string) (cors : list (string * string))
  (up : Proxy.UpstreamRequest -> Outcome Proxy.UpstreamResponse)
  (req : Proxy.Request) :
  nonempty key = true ->
  (Proxy.method req =? "OPTIONS")%string = false ->
  (forall a, In a known_actions ->
             searchParams_get (Proxy.searchParams req) "action" <> Some a) ->
  Proxy.handler key cors up req =
  (Returns (envelope cors "Invalid action"), []).
Proof.
  intros Hkey Hm Hunknown.
  apply (handler_early_failure key cors up req (new_Error _) Hm Hkey).
  assert (Hcase : forall a, In a known_actions ->
            is_case (searchParams_get (Proxy.searchParams req) "action") a = false).
  { intros a Ha. specialize (Hunknown a Ha).
    destruct (searchParams_get (Proxy.searchParams req) "action") as [x |];
      [| reflexivity].
    cbn [is_case]. apply String.eqb_neq. congruence. }
  unfold Proxy.dispatch.
  rewrite !Hcase by (cbn; auto 6). reflexivity.
Qed.

Lemma unknown_action_is_rejected_witness :
  nonempty (Some "KEY") = true /\
  (Proxy.method (Proxy.mkRequest "POST" [("action", "like-video")] no_body)
   =? "OPTIONS")%string = false /\
  Proxy.handler (Some "KEY") [] accepting_upstream
    (Proxy.mkRequest "POST" [("action", "like-video")] no_body)
  = (Returns (envelope [] "Invalid action"), []).
Proof.
  split; [reflexivity |]. split; [reflexivity |].
  apply (unknown_action_is_rejected (Some "KEY") [] accepting_upstream
           (Proxy.mkRequest "POST" [("action", "like-video")] no_body)
           eq_refl eq_refl).
  intros a Ha. cbn in Ha.
  destruct Ha as [<- | [<- | [<- | [<- | [<- | []]]]]]; discriminate.
Defined.

(** X3.  No request makes the proxy call the upstream service more than
    once: there is no retry and no second lookup. *)
Theorem at_most_one_upstream_call
  (key : option string) (cors : list (string * string))
  (up : Proxy.UpstreamRequest -> Outcome Proxy.UpstreamResponse)
  (req : Proxy.Request) :
  (length (snd (Proxy.handler key cors up req)) <= 1)%nat.
Proof.
  unfold Proxy.handler.
  destruct (Proxy.method req =? "OPTIONS")%string; [cbn; lia |].
  destruct (nonempty key) eqn:Hkey.
  - rewrite (handler_trace key cors up req Hkey).
    destruct (dispatch_shape key up req
                (searchParams_get (Proxy.searchParams req) "action")
                (searchParams_get (Proxy.searchParams req) "videoId"))
      as [[e He] | [r Hr]].
    + rewrite He. cbn. lia.
    + rewrite Hr. cbn. lia.
  - unfold Proxy.handler_try. rewrite Hkey. cbn. lia.
Qed.

(** X4.  When the upstream call itself fails (no response), the proxy
    answers 400 with the message of that failure. *)
Theorem upstream_unreachable_is_reported
  (key : option string) (cors : list (string * string))
  (up : Proxy.UpstreamRequest -> Outcome Proxy.UpstreamResponse)
  (req : Proxy.Request) (call : Proxy.UpstreamRequest) (e : Exn) :
  snd (Proxy.handler key cors up req) = [call] ->
  up call = Throws e ->
  fst (Proxy.handler key cors up req) = Returns (envelope cors (message e)).
Proof.
  intros Htrace Hup. rewrite (handler_settles key cors up req call Htrace).
  rewrite Hup. reflexivity.
Qed.

Lemma upstream_unreachable_is_reported_witness :
  snd (Proxy.handler (Some "KEY") [] unreachable_upstream delete_comment_request)
    = [delete_comment_call] /\
  unreachable_upstream delete_comment_call
    = Throws (mkExn TypeError "error sending request") /\
  fst (Proxy.handler (Some "KEY") [] unreachable_upstream delete_comment_request)
    = Returns (envelope [] "error sending request").
Proof.
  split; [reflexivity |]. split; [reflexivity |].
  exact (upstream_unreachable_is_reported (Some "KEY") [] unreachable_upstream
           delete_comment_request delete_comment_call
           (mkExn TypeError "error sending request") eq_refl eq_refl).
Defined.

(** X5.  The proxy parses the upstream body before it looks at the
    upstream status: an upstream answer whose body is not JSON is
    answered 400 with the parser's message even when the upstream call
    succeeded (as a delete answered with an empty body does). *)
Theorem upstream_answer_without_json_is_an_error
  (key : option string) (cors : list (string * string))
  (up : Proxy.UpstreamRequest -> Outcome Proxy.UpstreamResponse)
  (req : Proxy.Request) (call : Proxy.UpstreamRequest)
  (answer : Proxy.UpstreamResponse) (e : Exn) :
  snd (Proxy.handler key cors up req) = [call] ->
  up call = Returns answer ->
  Proxy.up_json answer = Throws e ->
  fst (Proxy.handler key cors up req) = Returns (envelope cors (message e)).
Proof.
  intros Htrace Hup Hjson. rewrite (handler_settles key cors up req call Htrace).
  rewrite Hup, Hjson. reflexivity.
Qed.

Lemma upstream_answer_without_json_is_an_error_witness :
  snd (Proxy.handler (Some "KEY") [] empty_answer_upstream delete_comment_request)
    = [delete_comment_call] /\
  empty_answer_upstream delete_comment_call
    = Returns (Proxy.mkUpResponse true no_body) /\
  Proxy.up_ok (Proxy.mkUpResponse true no_body) = true /\
  fst (Proxy.handler (Some "KEY") [] empty_answer_upstream delete_comment_request)
    = Returns (envelope [] "Unexpected end of JSON input").
Proof.
  split; [reflexivity |]. split; [reflexivity |]. split; [reflexivity |].
  exact (upstream_answer_without_json_is_an_error (Some "KEY") []
           empty_answer_upstream delete_comment_request delete_comment_call
           (Proxy.mkUpResponse true no_body)
           (mkExn SyntaxError "Unexpected end of JSON input")
           eq_refl eq_refl eq_refl).
Defined.

(** X6.  When the upstream service refuses the call (status not ok) with
    a JSON body, the proxy answers 400 with the upstream's own
    [error.message] when that is a non-empty string, and with "YouTube
    API error" when the body carries no usable message. *)
Theorem upstream_refusal_is_surfaced
  (key : option string) (cors : list (string * string))
  (up : Proxy.UpstreamRequest -> Outcome Proxy.UpstreamResponse)
  (req : Proxy.Request) (call : Proxy.UpstreamRequest)
  (answer : Proxy.UpstreamResponse) (data : JSON) :
  snd (Proxy.handler key cors up req) = [call] ->
  up call = Returns answer ->
  Proxy.up_ok answer = false ->
  Proxy.up_json answer = Returns data ->
  (forall err m,
     get_own data "error" = Some err ->
     get_own err "message" = Some (JStr m) -> m <> "" ->
     fst (Proxy.handler key cors up req) = Returns (envelope cors m))
  /\
  (data <> JNull ->
   truthy (get_prop_opt (get_own data "error") "message") = false ->
   fst (Proxy.handler key cors up req)
   = Returns (envelope cors "YouTube API error")).
Proof.
  intros Htrace Hup Hok Hjson.
  rewrite (handler_settles key cors up req call Htrace).
  rewrite Hup, Hjson, Hok. cbn [fst].
  split.
  - intros err m Herr Hmsg Hm.
    assert (Hdata : get_prop (Some data) "error" = Returns (Some err)).
    { destruct data; try discriminate Herr. cbn [get_prop]. rewrite Herr.
      reflexivity. }
    rewrite Hdata.
    assert (Hopt : get_prop_opt (Some err) "message" = Some (JStr m)).
    { destruct err; try discriminate Hmsg. exact Hmsg. }
    rewrite Hopt. unfold or_else. cbn [truthy].
    apply String.eqb_neq in Hm. rewrite Hm. reflexivity.
  - intros Hnull Hfalsy.
    assert (Hdata : get_prop (Some data) "error" = Returns (get_own data "error")).
    { destruct data; try reflexivity. contradiction. }
    rewrite Hdata. unfold or_else. rewrite Hfalsy. reflexivity.
Qed.

Lemma upstream_refusal_is_surfaced_witness :
  snd (Proxy.handler (Some "KEY") [] refusing_upstream delete_comment_request)
    = [delete_comment_call] /\
  fst (Proxy.handler (Some "KEY") [] refusing_upstream delete_comment_request)
    = Returns (envelope [] "The comment cannot be found.").
Proof.
  assert (Hm : "The comment cannot be found." <> "") by discriminate.
  split; [reflexivity |].
  exact (proj1 (upstream_refusal_is_surfaced (Some "KEY") [] refusing_upstream
                  delete_comment_request delete_comment_call
                  (Proxy.mkUpResponse false
                     (Returns (JObj [("error", JObj
                        [("code", JNum "404");
                         ("message", JStr "The comment cannot be found.")])])))
                  (JObj [("error", JObj
                     [("code", JNum "404");
                      ("message", JStr "The comment cannot be found.")])])
                  eq_refl eq_refl eq_refl eq_refl)
           (JObj [("code", JNum "404");
                  ("message", JStr "The comment cannot be found.")])
           "The comment cannot be found." eq_refl eq_refl Hm).
Defined.

Lemma assoc_set_key (k k' v : string) (l : list (string * string)) :
  assoc k (set_key k' v l) = if (k =? k')%string then Some v else assoc k l.
Proof.
  induction l as [| [k0 v0] l IH]; cbn [set_key assoc].
  - destruct (k =? k')%string; reflexivity.
  - destruct (String.eqb_spec k' k0) as [-> | Hne]; cbn [assoc].
    + destruct (k =? k0)%string; reflexivity.
    + rewrite IH.
      destruct (String.eqb_spec k k0) as [-> | Hk]; [| reflexivity].
      apply not_eq_sym in Hne. apply String.eqb_neq in Hne. rewrite Hne.
      reflexivity.
Qed.

(** Outside the preflight branch every response is built with the
    headers [{...corsHeaders, 'Content-Type': 'application/json'}]. *)
Lemma handler_headers
  (key : option string) (cors : list (string * string))
  (up : Proxy.UpstreamRequest -> Outcome Proxy.UpstreamResponse)
  (req : Proxy.Request) (r : Proxy.Response) (t : list Proxy.UpstreamRequest) :
  (Proxy.method req =? "OPTIONS")%string = false ->
  Proxy.handler key cors up req = (Returns r, t) ->
  Proxy.headers r = Proxy.json_headers cors.
Proof.
  intros Hm Hrun.
  destruct (nonempty key) eqn:Hkey.
  - destruct (dispatch_shape key up req
                (searchParams_get (Proxy.searchParams req) "action")
                (searchParams_get (Proxy.searchParams req) "videoId"))
      as [[e He] | [call Hcall]].
    + rewrite (handler_early_failure key cors up req e Hm Hkey He) in Hrun.
      injection Hrun as <- _. reflexivity.
    + assert (Htrace : snd (Proxy.handler key cors up req) = [call]).
      { unfold Proxy.handler. rewrite Hm.
        rewrite (handler_trace key cors up req Hkey), Hcall. reflexivity. }
      rewrite (handler_settles key cors up req call Htrace) in Hrun.
      injection Hrun as <- _.
      destruct (up call) as [answer | e]; [| reflexivity].
      destruct (Proxy.up_json answer) as [data | e]; [| reflexivity].
      destruct (Proxy.up_ok answer); [reflexivity |].
      destruct data; reflexivity.
  - unfold Proxy.handler, Proxy.handler_try in Hrun.
    rewrite Hm, Hkey in Hrun. injection Hrun as <- _. reflexivity.
Qed.

(** X7.  Every response of the proxy carries each cross-origin header
    of the shared header set with its value (a [Content-Type] entry
    apart), and every response other than the preflight answer is
    labelled [Content-Type: application/json], errors included. *)
Theorem responses_carry_the_cors_headers
  (key : option string) (cors : list (string * string))
  (up : Proxy.UpstreamRequest -> Outcome Proxy.UpstreamResponse)
  (req : Proxy.Request) (r : Proxy.Response) (t : list Proxy.UpstreamRequest) :
  Proxy.handler key cors up req = (Returns r, t) ->
  (forall k, k <> "Content-Type" ->
             assoc k (Proxy.headers r) = assoc k cors) /\
  ((Proxy.method req =? "OPTIONS")%string = false ->
   assoc "Content-Type" (Proxy.headers r) = Some "application/json").
Proof.
  intros Hrun.
  destruct (Proxy.method req =? "OPTIONS")%string eqn:Hm.
  - split; [| discriminate].
    unfold Proxy.handler in Hrun. rewrite Hm in Hrun.
    injection Hrun as <- _. reflexivity.
  - rewrite (handler_headers key cors up req r t Hm Hrun).
    unfold Proxy.json_headers. split.
    + intros k Hk. rewrite assoc_set_key.
      apply String.eqb_neq in Hk. rewrite Hk. reflexivity.
    + intros _. rewrite assoc_set_key. reflexivity.
Qed.

Lemma responses_carry_the_cors_headers_witness :
  Proxy.handler None [("Access-Control-Allow-Origin", "*")] accepting_upstream
    get_video_details
  = (Returns (envelope [("Access-Control-Allow-Origin", "*")]
                "YouTube API key not configured"), []) /\
  assoc "Access-Control-Allow-Origin"
    (Proxy.headers (envelope [("Access-Control-Allow-Origin", "*")]
                      "YouTube API key not configured"))
  = Some "*".
Proof.
  assert (Hk : "Access-Control-Allow-Origin" <> "Content-Type") by discriminate.
  split; [reflexivity |].
  exact (proj1 (responses_carry_the_cors_headers None
                  [("Access-Control-Allow-Origin", "*")] accepting_upstream
                  get_video_details _ _ eq_refl)
           "Access-Control-Allow-Origin" Hk).
Defined.

Lemma write_is_not_preflight (action : option string) (m : string) :
  is_write_with_method action m -> (m =? "OPTIONS")%string = false.
Proof.
  intros [[_ ->] | [[_ ->] | [_ ->]]]; reflexivity.
Qed.

(** X8.  A write that comes with the right method but whose body is not
    JSON, or is the JSON value [null], is answered 400 with the message
    of that failure before anything is sent upstream. *)
Theorem write_with_bad_body_is_rejected
  (key : option string) (cors : list (string * string))
  (up : Proxy.UpstreamRequest -> Outcome Proxy.UpstreamResponse)
  (req : Proxy.Request) :
  nonempty key = true ->
  is_write_with_method (searchParams_get (Proxy.searchParams req) "action")
    (Proxy.method req) ->
  (forall e, Proxy.json req = Throws e ->
     Proxy.handler key cors up req = (Returns (envelope cors (message e)), []))
  /\
  (Proxy.json req = Returns JNull ->
   Proxy.handler key cors up req =
   (Returns (envelope cors
      "Cannot destructure property 'accessToken' of '(intermediate value)' as it is null."),
    [])).
Proof.
  intros Hkey Hwrite.
  pose proof (write_is_not_preflight _ _ Hwrite) as Hm.
  split.
  - intros e Hjson.
    apply (handler_early_failure key cors up req e Hm Hkey).
    destruct Hwrite as [[-> Hmeth] | [[-> Hmeth] | [-> Hmeth]]];
      unfold Proxy.dispatch; cbn [is_case String.eqb Ascii.eqb Bool.eqb];
      rewrite Hmeth, Hjson; reflexivity.
  - intros Hjson.
    apply (handler_early_failure key cors up req (mkExn TypeError _) Hm Hkey).
    destruct Hwrite as [[-> Hmeth] | [[-> Hmeth] | [-> Hmeth]]];
      unfold Proxy.dispatch; cbn [is_case String.eqb Ascii.eqb Bool.eqb];
      rewrite Hmeth, Hjson; reflexivity.
Qed.

Lemma write_with_bad_body_is_rejected_witness :
  nonempty (Some "KEY") = true /\
  is_write_with_method
    (searchParams_get
       (Proxy.searchParams
          (Proxy.mkRequest "PUT" [("action", "update-video"); ("videoId", "abc123")]
             no_body)) "action")
    "PUT" /\
  Proxy.handler (Some "KEY") [] accepting_upstream
    (Proxy.mkRequest "PUT" [("action", "update-video"); ("videoId", "abc123")]
       no_body)
  = (Returns (envelope [] "Unexpected end of JSON input"), []).
Proof.
  assert (Hw : is_write_with_method (Some "update-video") "PUT")
    by (right; right; split; reflexivity).
  split; [reflexivity |]. split; [exact Hw |].
  exact (proj1 (write_with_bad_body_is_rejected (Some "KEY") [] accepting_upstream
                  (Proxy.mkRequest "PUT"
                     [("action", "update-video"); ("videoId", "abc123")] no_body)
                  eq_refl Hw)
           (mkExn SyntaxError "Unexpected end of JSON input") eq_refl).
Defined.

(** X9.  The proxy does not check that the body of a write carries an
    [accessToken]: without one the call still goes upstream, with the
    header [Authorization: Bearer undefined]. *)
Theorem write_without_token_is_forwarded
  (key : option string) (cors : list (string * string))
  (up : Proxy.UpstreamRequest -> Outcome Proxy.UpstreamResponse)
  (req : Proxy.Request) (parsed : JSON) :
  nonempty key = true ->
  is_write_with_method (searchParams_get (Proxy.searchParams req) "action")
    (Proxy.method req) ->
  Proxy.json req = Returns parsed ->
  parsed <> JNull ->
  get_own parsed "accessToken" = None ->
  exists call,
    snd (Proxy.handler key cors up req) = [call] /\
    assoc "Authorization" (Proxy.up_headers call) = Some "Bearer undefined".
Proof.
  intros Hkey Hwrite Hjson Hnull Htoken.
  pose proof (write_is_not_preflight _ _ Hwrite) as Hm.
  unfold Proxy.handler. rewrite Hm.
  rewrite (handler_trace key cors up req Hkey).
  destruct Hwrite as [[-> Hmeth] | [[-> Hmeth] | [-> Hmeth]]];
    unfold Proxy.dispatch; cbn [is_case String.eqb Ascii.eqb Bool.eqb];
    rewrite Hmeth, Hjson; cbn [String.eqb Ascii.eqb Bool.eqb negb];
    rewrite bind_guard_pass, bind_await_returns;
    (destruct parsed; [contradiction | ..]);
    cbn [destructure]; rewrite bind_await_returns;
    eexists; (split; [reflexivity |]); cbn [Proxy.up_headers assoc];
    cbn [String.eqb Ascii.eqb Bool.eqb];
    try (rewrite Htoken); reflexivity.
Qed.

Lemma write_without_token_is_forwarded_witness :
  nonempty (Some "KEY") = true /\
  is_write_with_method
    (searchParams_get (Proxy.searchParams post_without_token) "action") "POST" /\
  JObj [("text", JStr "nice video!")] <> JNull /\
  get_own (JObj [("text", JStr "nice video!")]) "accessToken" = None /\
  exists call,
    snd (Proxy.handler (Some "KEY") [] accepting_upstream post_without_token)
      = [call] /\
    assoc "Authorization" (Proxy.up_headers call) = Some "Bearer undefined".
Proof.
  assert (Hw : is_write_with_method (Some "post-comment") "POST")
    by (left; split; reflexivity).
  assert (Hn : JObj [("text", JStr "nice video!")] <> JNull) by discriminate.
  split; [reflexivity |]. split; [exact Hw |]. split; [exact Hn |].
  split; [reflexivity |].
  exact (write_without_token_is_forwarded (Some "KEY") [] accepting_upstream
           post_without_token (JObj [("text", JStr "nice video!")])
           eq_refl Hw eq_refl Hn eq_refl).
Defined.

(** ** The browser-side client: HTTP errors, unread bodies, defaults *)

(** X10.  When the proxy answers with an error status and a JSON body,
    the client call rejects with an [Error] carrying the [error] text of
    that body (or "YouTube API request failed" when the body has none);
    it never substitutes mock data, whatever the text says. *)
Theorem http_error_is_raised_with_the_envelope_message
  (url anon : string)
  (fetch : YouTube.ProxyCall -> Outcome YouTube.ProxyResponse)
  (now : string) (params : list (string * string))
  (options : YouTube.RequestInit)
  (resp : YouTube.ProxyResponse) (body : JSON) :
  fetch (YouTube.proxy_call url anon params options) = Returns resp ->
  YouTube.ok resp = false ->
  YouTube.json resp = Returns body ->
  (forall m, get_own body "error" = Some (JStr m) -> m <> "" ->
     YouTube.makeYouTubeRequest url anon fetch now params options
     = Throws (new_Error m))
  /\
  (body <> JNull -> truthy (get_own body "error") = false ->
   YouTube.makeYouTubeRequest url anon fetch now params options
   = Throws (new_Error "YouTube API request failed")).
Proof.
  intros Hfetch Hok Hjson.
  unfold YouTube.makeYouTubeRequest, YouTube.request_try.
  rewrite Hfetch. cbn [YouTube.bind]. rewrite Hok, Hjson. cbn [YouTube.bind].
  split.
  - intros m Herr Hm.
    assert (Hp : get_prop (Some body) "error" = Returns (Some (JStr m))).
    { destruct body; try discriminate Herr. cbn [get_prop]. rewrite Herr.
      reflexivity. }
    rewrite Hp. cbn [YouTube.bind]. unfold or_else. cbn [truthy].
    apply String.eqb_neq in Hm. rewrite Hm. reflexivity.
  - intros Hnull Hfalsy.
    assert (Hp : get_prop (Some body) "error" = Returns (get_own body "error")).
    { destruct body; try reflexivity. contradiction. }
    rewrite Hp. cbn [YouTube.bind]. unfold or_else. rewrite Hfalsy. reflexivity.
Qed.

Lemma http_error_is_raised_with_the_envelope_message_witness :
  "Failed to fetch the video" <> "" /\
  YouTube.makeYouTubeRequest "https://project.supabase.co" "anon"
    (answers_400 "Failed to fetch the video") "2025-07-20T05:44:06.000Z"
    [("action", "video-details"); ("videoId", "abc123")] YouTube.no_options
  = Throws (new_Error "Failed to fetch the video").
Proof.
  assert (Hm : "Failed to fetch the video" <> "") by discriminate.
  split; [exact Hm |].
  exact (proj1 (http_error_is_raised_with_the_envelope_message
                  "https://project.supabase.co" "anon"
                  (answers_400 "Failed to fetch the video")
                  "2025-07-20T05:44:06.000Z"
                  [("action", "video-details"); ("videoId", "abc123")]
                  YouTube.no_options
                  (YouTube.mkProxyResponse false
                     (Returns (JObj [("error", JStr "Failed to fetch the video")])))
                  (JObj [("error", JStr "Failed to fetch the video")])
                  eq_refl eq_refl eq_refl)
           "Failed to fetch the video" eq_refl Hm).
Defined.

(** X11.  The mock fallback covers a body that cannot be read only on
    the error path.  If reading the body of an error answer fails with a
    TypeError mentioning "fetch", the call resolves to the mock data; if
    reading the body of a success answer fails in the very same way, the
    call rejects with that failure, because the promise is returned
    without being awaited inside the [try]. *)
Theorem unread_body_is_masked_only_on_the_error_path
  (url anon : string)
  (fetch : YouTube.ProxyCall -> Outcome YouTube.ProxyResponse)
  (now : string) (params : list (string * string))
  (options : YouTube.RequestInit)
  (resp : YouTube.ProxyResponse) (e : Exn) :
  fetch (YouTube.proxy_call url anon params options) = Returns resp ->
  YouTube.json resp = Throws e ->
  YouTube.is_fetch_failure e = true ->
  YouTube.makeYouTubeRequest url anon fetch now params options =
  if YouTube.ok resp then Throws e
  else Returns (YouTube.getMockData now params).
Proof.
  intros Hfetch Hjson Hfail.
  unfold YouTube.makeYouTubeRequest, YouTube.request_try.
  rewrite Hfetch. cbn [YouTube.bind].
  destruct (YouTube.ok resp); rewrite Hjson; [reflexivity |].
  cbn [YouTube.bind]. rewrite Hfail. reflexivity.
Qed.

Lemma unread_body_is_masked_only_on_the_error_path_witness :
  YouTube.is_fetch_failure failed_to_fetch = true /\
  YouTube.makeYouTubeRequest "https://project.supabase.co" "anon"
    drops_success_body "2025-07-20T05:44:06.000Z"
    [("action", "comments"); ("videoId", "abc123")] YouTube.no_options
  = Throws failed_to_fetch /\
  YouTube.makeYouTubeRequest "https://project.supabase.co" "anon"
    drops_error_body "2025-07-20T05:44:06.000Z"
    [("action", "delete-comment"); ("commentId", "c1")] YouTube.no_options
  = Returns empty_items.
Proof.
  split; [reflexivity |]. split.
  - exact (unread_body_is_masked_only_on_the_error_path
             "https://project.supabase.co" "anon" drops_success_body
             "2025-07-20T05:44:06.000Z"
             [("action", "comments"); ("videoId", "abc123")] YouTube.no_options
             (YouTube.mkProxyResponse true (Throws failed_to_fetch))
             failed_to_fetch eq_refl eq_refl eq_refl).
  - exact (unread_body_is_masked_only_on_the_error_path
             "https://project.supabase.co" "anon" drops_error_body
             "2025-07-20T05:44:06.000Z"
             [("action", "delete-comment"); ("commentId", "c1")] YouTube.no_options
             (YouTube.mkProxyResponse false (Throws failed_to_fetch))
             failed_to_fetch eq_refl eq_refl eq_refl).
Defined.

(** X12.  [getVideoComments] never resolves to [undefined]: whatever the
    proxy answers, a resolved call carries a value, and that value is
    the empty list whenever the answer has no (or a falsy) [items]. *)
Theorem comments_are_never_undefined
  (url anon : string)
  (fetch : YouTube.ProxyCall -> Outcome YouTube.ProxyResponse)
  (now : string) (videoId : string) :
  YouTube.getVideoComments url anon fetch now videoId <> Returns None /\
  (forall data,
     YouTube.makeYouTubeRequest url anon fetch now
       [("action", "comments"); ("videoId", videoId)] YouTube.no_options
     = Returns data ->
     data <> JNull ->
     truthy (get_own data "items") = false ->
     YouTube.getVideoComments url anon fetch now videoId
     = Returns (Some (JArr []))).
Proof.
  unfold YouTube.getVideoComments. split.
  - destruct (YouTube.makeYouTubeRequest url anon fetch now
                [("action", "comments"); ("videoId", videoId)] YouTube.no_options)
      as [data | e]; cbn [YouTube.bind]; [| discriminate].
    destruct (get_prop (Some data) "items") as [items | e];
      cbn [YouTube.bind]; [| discriminate].
    unfold or_else. destruct (truthy items) eqn:Ht; [| discriminate].
    destruct items; [discriminate | discriminate Ht].
  - intros data -> Hnull Hfalsy. cbn [YouTube.bind].
    assert (Hp : get_prop (Some data) "items" = Returns (get_own data "items")).
    { destruct data; try reflexivity. contradiction. }
    rewrite Hp. cbn [YouTube.bind]. unfold or_else. rewrite Hfalsy. reflexivity.
Qed.

Lemma comments_are_never_undefined_witness :
  YouTube.makeYouTubeRequest "https://project.supabase.co" "anon"
    answers_empty_object "2025-07-20T05:44:06.000Z"
    [("action", "comments"); ("videoId", "abc123")] YouTube.no_options
  = Returns (JObj []) /\
  JObj [] <> JNull /\
  truthy (get_own (JObj []) "items") = false /\
  YouTube.getVideoComments "https://project.supabase.co" "anon"
    answers_empty_object "2025-07-20T05:44:06.000Z" "abc123"
  = Returns (Some (JArr [])).
Proof.
  assert (Hn : JObj [] <> JNull) by discriminate.
  split; [reflexivity |]. split; [exact Hn |]. split; [reflexivity |].
  exact (proj2 (comments_are_never_undefined "https://project.supabase.co" "anon"
                  answers_empty_object "2025-07-20T05:44:06.000Z" "abc123")
           (JObj []) eq_refl Hn eq_refl).
Defined.

(** X13.  [getVideoDetails] hands back the first element of [items] and
    drops the others; when the answer has no [items] at all the call
    rejects with a TypeError instead of resolving. *)
Theorem video_details_is_the_first_item
  (url anon : string)
  (fetch : YouTube.ProxyCall -> Outcome YouTube.ProxyResponse)
  (now : string) (videoId : string) (data : JSON) :
  YouTube.makeYouTubeRequest url anon fetch now
    [("action", "video-details"); ("videoId", videoId)] YouTube.no_options
  = Returns data ->
  (forall v rest,
     get_own data "items" = Some (JArr (v :: rest)) ->
     YouTube.getVideoDetails url anon fetch now videoId = Returns (Some v))
  /\
  (data <> JNull -> get_own data "items" = None ->
   YouTube.getVideoDetails url anon fetch now videoId
   = Throws (mkExn TypeError
               "Cannot read properties of undefined (reading '0')")).
Proof.
  intros Hreq. unfold YouTube.getVideoDetails. rewrite Hreq.
  cbn [YouTube.bind]. split.
  - intros v rest Hitems.
    destruct data; try discriminate Hitems.
    cbn [get_prop]. rewrite Hitems. reflexivity.
  - intros Hnull Hitems.
    destruct data; try contradiction; cbn [get_prop]; rewrite Hitems;
      reflexivity.
Qed.

Lemma video_details_is_the_first_item_witness :
  YouTube.makeYouTubeRequest "https://project.supabase.co" "anon"
    answers_two_videos "2025-07-20T05:44:06.000Z"
    [("action", "video-details"); ("videoId", "first")] YouTube.no_options
  = Returns (JObj [("items", JArr [JObj [("id", JStr "first")];
                                   JObj [("id", JStr "second")]])]) /\
  YouTube.getVideoDetails "https://project.supabase.co" "anon"
    answers_two_videos "2025-07-20T05:44:06.000Z" "first"
  = Returns (Some (JObj [("id", JStr "first")])) /\
  YouTube.getVideoDetails "https://project.supabase.co" "anon"
    answers_empty_object "2025-07-20T05:44:06.000Z" "first"
  = Throws (mkExn TypeError "Cannot read properties of undefined (reading '0')").
Proof.
  assert (Hn : JObj [] <> JNull) by discriminate.
  split; [reflexivity |]. split.
  - exact (proj1 (video_details_is_the_first_item "https://project.supabase.co"
                    "anon" answers_two_videos "2025-07-20T05:44:06.000Z" "first"
                    _ eq_refl)
             (JObj [("id", JStr "first")]) [JObj [("id", JStr "second")]] eq_refl).
  - exact (proj2 (video_details_is_the_first_item "https://project.supabase.co"
                    "anon" answers_empty_object "2025-07-20T05:44:06.000Z" "first"
                    (JObj []) eq_refl)
             Hn eq_refl).
Defined.

(** ** The client in front of the deployed proxy *)

(** How the client's request fares once the proxy has answered. *)
Lemma makeYouTubeRequest_deployed
  (key : option string) (cors : list (string * string))
  (up : Proxy.UpstreamRequest -> Outcome Proxy.UpstreamResponse)
  (url anon now : string) (params : list (string * string))
  (options : YouTube.RequestInit) (r : Proxy.Response) :
  fst (Proxy.handler key cors up
         (Wire.to_request (YouTube.proxy_call url anon params options)))
  = Returns r ->
  Wire.deployed key cors up (YouTube.proxy_call url anon params options)
  = Returns (Wire.to_response r).
Proof.
  intros Hrun. unfold Wire.deployed. rewrite Hrun. reflexivity.
Qed.

(** X14.  A read end to end.  With a key configured on the server and a
    non-empty [videoId], when the upstream service answers the video
    lookup for that id and key with success and a JSON body whose
    [items] starts with [v], [getVideoDetails] in the browser resolves
    to [v]. *)
Theorem video_details_end_to_end
  (k : string) (cors : list (string * string))
  (up : Proxy.UpstreamRequest -> Outcome Proxy.UpstreamResponse)
  (url anon now videoId : string)
  (answer : Proxy.UpstreamResponse) (data v : JSON) (rest : list JSON) :
  k <> "" -> videoId <> "" ->
  up (Proxy.mkUpstream
        (Proxy.YOUTUBE_BASE_URL ++ "/videos?id=" ++ videoId
         ++ "&part=snippet,statistics,status&key=" ++ k) "GET" [] None)
  = Returns answer ->
  Proxy.up_ok answer = true ->
  Proxy.up_json answer = Returns data ->
  get_own data "items" = Some (JArr (v :: rest)) ->
  YouTube.getVideoDetails url anon (Wire.deployed (Some k) cors up) now videoId
  = Returns (Some v).
Proof.
  intros Hk Hv Hup Hok Hjson Hitems.
  pose proof (nonempty_Some k Hk) as Hnk.
  pose proof (nonempty_Some videoId Hv) as Hnv.
  set (call := Proxy.mkUpstream
                 (Proxy.YOUTUBE_BASE_URL ++ "/videos?id=" ++ videoId
                  ++ "&part=snippet,statistics,status&key=" ++ k) "GET" [] None)
    in *.
  set (req := Wire.to_request
                (YouTube.proxy_call url anon
                   [("action", "video-details"); ("videoId", videoId)]
                   YouTube.no_options)).
  assert (Htrace : snd (Proxy.handler (Some k) cors up req) = [call]).
  { unfold Proxy.handler. cbn [req Wire.to_request Proxy.method
      YouTube.call_method YouTube.proxy_call YouTube.init_method
      YouTube.no_options String.eqb Ascii.eqb Bool.eqb].
    rewrite (handler_trace (Some k) cors up _ Hnk).
    unfold Proxy.dispatch.
    cbn [req Wire.to_request Proxy.searchParams YouTube.call_params
         YouTube.proxy_call searchParams_get assoc is_case
         String.eqb Ascii.eqb Bool.eqb].
    rewrite Hnv. cbn [negb]. rewrite bind_guard_pass. reflexivity. }
  assert (Hrun : fst (Proxy.handler (Some k) cors up req)
                 = Returns (Proxy.mkResponse 200 (Proxy.json_headers cors)
                              (Some data))).
  { rewrite (handler_settles (Some k) cors up req call Htrace).
    rewrite Hup, Hjson, Hok. reflexivity. }
  unfold YouTube.getVideoDetails, YouTube.makeYouTubeRequest, YouTube.request_try.
  subst req.
  rewrite (makeYouTubeRequest_deployed (Some k) cors up url anon now
             [("action", "video-details"); ("videoId", videoId)]
             YouTube.no_options _ Hrun).
  cbn [YouTube.bind Wire.to_response YouTube.ok YouTube.json Proxy.status
       Proxy.body Z.leb Z.compare Pos.compare Pos.compare_cont andb].
  destruct data; try discriminate Hitems.
  cbn [get_prop YouTube.bind]. rewrite Hitems. reflexivity.
Qed.

Lemma video_details_end_to_end_witness :
  "KEY" <> "" /\ "abc123" <> "" /\
  YouTube.getVideoDetails "https://project.supabase.co" "anon"
    (Wire.deployed (Some "KEY") [] serves_one_video)
    "2025-07-20T05:44:06.000Z" "abc123"
  = Returns (Some one_video).
Proof.
  assert (Hk : "KEY" <> "") by discriminate.
  assert (Hv : "abc123" <> "") by discriminate.
  split; [exact Hk |]. split; [exact Hv |].
  exact (video_details_end_to_end "KEY" [] serves_one_video
           "https://project.supabase.co" "anon" "2025-07-20T05:44:06.000Z"
           "abc123"
           (Proxy.mkUpResponse true
              (Returns (JObj [("kind", JStr "youtube#videoListResponse");
                              ("items", JArr [one_video])])))
           (JObj [("kind", JStr "youtube#videoListResponse");
                  ("items", JArr [one_video])])
           one_video [] Hk Hv eq_refl eq_refl eq_refl eq_refl).
Defined.

(** The client facing an envelope of the proxy. *)
Lemma envelope_reaches_caller
  (key : option string) (cors : list (string * string))
  (up : Proxy.UpstreamRequest -> Outcome Proxy.UpstreamResponse)
  (url anon now : string) (params : list (string * string))
  (options : YouTube.RequestInit) (m : string) :
  fst (Proxy.handler key cors up
         (Wire.to_request (YouTube.proxy_call url anon params options)))
  = Returns (envelope cors m) ->
  YouTube.makeYouTubeRequest url anon (Wire.deployed key cors up) now params options
  = Throws (new_Error (if (m =? "")%string then "YouTube API request failed"
                       else m)).
Proof.
  intros Hrun.
  unfold YouTube.makeYouTubeRequest, YouTube.request_try.
  rewrite (makeYouTubeRequest_deployed key cors up url anon now params options
             _ Hrun).
  cbn [YouTube.bind Wire.to_response envelope YouTube.ok YouTube.json
       Proxy.status Proxy.body Z.leb Z.compare Pos.compare Pos.compare_cont andb
       get_prop get_own assoc String.eqb Ascii.eqb Bool.eqb].
  unfold or_else. cbn [truthy].
  destruct (m =? "")%string; reflexivity.
Qed.

(** X15.  Every error the proxy answers with reaches the caller of the
    client as a rejection whose message is the proxy's [error] text,
    word for word ("YouTube API request failed" when that text is
    empty); the client never replaces it by mock data. *)
Theorem proxy_errors_reach_the_caller
  (key : option string) (cors : list (string * string))
  (up : Proxy.UpstreamRequest -> Outcome Proxy.UpstreamResponse)
  (url anon now : string) (params : list (string * string))
  (options : YouTube.RequestInit) (m : string) :
  fst (Proxy.handler key cors up
         (Wire.to_request (YouTube.proxy_call url anon params options)))
  = Returns (envelope cors m) ->
  (m <> "" ->
   YouTube.makeYouTubeRequest url anon (Wire.deployed key cors up) now
     params options = Throws (new_Error m))
  /\
  (m = "" ->
   YouTube.makeYouTubeRequest url anon (Wire.deployed key cors up) now
     params options = Throws (new_Error "YouTube API request failed")).
Proof.
  intros Hrun.
  rewrite (envelope_reaches_caller key cors up url anon now params options m Hrun).
  split.
  - intros Hm. apply String.eqb_neq in Hm. rewrite Hm. reflexivity.
  - intros ->. reflexivity.
Qed.

Lemma proxy_errors_reach_the_caller_witness :
  "YouTube API key not configured" <> "" /\
  YouTube.postComment "https://project.supabase.co" "anon"
    (Wire.deployed None [] accepting_upstream) "2025-07-20T05:44:06.000Z"
    "abc123" "nice video!" "token"
  = Throws (new_Error "YouTube API key not configured").
Proof.
  assert (Hm : "YouTube API key not configured" <> "") by discriminate.
  split; [exact Hm |].
  exact (proj1 (proxy_errors_reach_the_caller None [] accepting_upstream
                  "https://project.supabase.co" "anon" "2025-07-20T05:44:06.000Z"
                  [("action", "post-comment"); ("videoId", "abc123")]
                  (YouTube.mkInit (Some "POST")
                     (Some (JObj [("accessToken", JStr "token");
                                  ("text", JStr "nice video!")])))
                  "YouTube API key not configured" eq_refl) Hm).
Defined.

(** X16.  A delete end to end.  With a key configured on the server,
    when the upstream service answers the delete of [commentId] with a
    body that is not JSON (an empty body, as for a plain
    acknowledgement), [deleteComment] in the browser rejects with the
    parser's message, whether or not the upstream status was a
    success. *)
Theorem delete_acknowledged_without_body_fails
  (k : string) (cors : list (string * string))
  (up : Proxy.UpstreamRequest -> Outcome Proxy.UpstreamResponse)
  (url anon now commentId token : string)
  (answer : Proxy.UpstreamResponse) (e : Exn) :
  k <> "" ->
  up (Proxy.mkUpstream (Proxy.YOUTUBE_BASE_URL ++ "/comments?id=" ++ commentId)
        "DELETE" [("Authorization", "Bearer " ++ token)] None)
  = Returns answer ->
  Proxy.up_json answer = Throws e ->
  message e <> "" ->
  YouTube.deleteComment url anon (Wire.deployed (Some k) cors up) now
    commentId token
  = Throws (new_Error (message e)).
Proof.
  intros Hk Hup Hjson Hmsg.
  pose proof (nonempty_Some k Hk) as Hnk.
  set (call := Proxy.mkUpstream
                 (Proxy.YOUTUBE_BASE_URL ++ "/comments?id=" ++ commentId)
                 "DELETE" [("Authorization", "Bearer " ++ token)] None) in *.
  set (params := [("action", "delete-comment"); ("commentId", commentId)]).
  set (options := YouTube.mkInit (Some "DELETE")
                    (Some (JObj [("accessToken", JStr token)]))).
  set (req := Wire.to_request (YouTube.proxy_call url anon params options)).
  assert (Htrace : snd (Proxy.handler (Some k) cors up req) = [call]).
  { unfold Proxy.handler. cbn [req options Wire.to_request Proxy.method
      YouTube.call_method YouTube.proxy_call YouTube.init_method
      String.eqb Ascii.eqb Bool.eqb].
    rewrite (handler_trace (Some k) cors up _ Hnk).
    reflexivity. }
  assert (Hrun : fst (Proxy.handler (Some k) cors up req)
                 = Returns (envelope cors (message e))).
  { rewrite (handler_settles (Some k) cors up req call Htrace).
    rewrite Hup, Hjson. reflexivity. }
  unfold YouTube.deleteComment. fold params. fold options. subst req.
  rewrite (envelope_reaches_caller (Some k) cors up url anon now params options
             (message e) Hrun).
  apply String.eqb_neq in Hmsg. rewrite Hmsg. reflexivity.
Qed.

Lemma delete_acknowledged_without_body_fails_witness :
  "KEY" <> "" /\
  message (mkExn SyntaxError "Unexpected end of JSON input") <> "" /\
  YouTube.deleteComment "https://project.supabase.co" "anon"
    (Wire.deployed (Some "KEY") [] empty_answer_upstream)
    "2025-07-20T05:44:06.000Z" "c1" "token"
  = Throws (new_Error "Unexpected end of JSON input").
Proof.
  assert (Hk : "KEY" <> "") by discriminate.
  assert (Hm : message (mkExn SyntaxError "Unexpected end of JSON input") <> "")
    by discriminate.
  split; [exact Hk |]. split; [exact Hm |].
  exact (delete_acknowledged_without_body_fails "KEY" [] empty_answer_upstream
           "https://project.supabase.co" "anon" "2025-07-20T05:44:06.000Z"
           "c1" "token" (Proxy.mkUpResponse true no_body)
           (mkExn SyntaxError "Unexpected end of JSON input")
           Hk eq_refl eq_refl Hm).
Defined.

(** ** The notes panel: composition of its handlers *)

Lemma filter_all_true {A} (p : A -> bool) (l : list A) :
  (forall x, In x l -> p x = true) -> filter p l = l.
Proof.
  induction l as [| a l IH]; intros H; [reflexivity |].
  cbn [filter]. rewrite (H a (or_introl eq_refl)).
  rewrite IH; [reflexivity |]. intros x Hx. apply H. right. exact Hx.
Qed.

Lemma filter_twice {A} (p : A -> bool) (l : list A) :
  filter p (filter p l) = filter p l.
Proof.
  apply filter_all_true. intros x Hx. apply filter_In in Hx. apply Hx.
Qed.

Lemma logged_logEvent (u : User)
  (insert_event : string -> string -> JSON -> Outcome unit)
  (eventType : string) (eventData : JSON) :
  logged (EventLogger.logEvent (Some u) insert_event eventType eventData)
  = [(user_id u, eventType)].
Proof.
  unfold EventLogger.logEvent.
  destruct (insert_event (user_id u) eventType eventData); reflexivity.
Qed.

(** X17.  Adding a note and then deleting the row the store returned
    brings the sequence back to what it was, provided no note of the
    panel already carried the identifier of that row. *)
Theorem add_then_delete_restores_the_notes
  (trim : string -> string) (videoId : string) (u : User)
  (insert_event : string -> string -> JSON -> Outcome unit)
  (store_insert : string -> string -> string -> Notes.StoreReply Notes.Note)
  (store_delete : string -> Notes.StoreReply unit)
  (confirm : string -> bool) (row : Notes.Note) (st : Notes.State) :
  trim (Notes.newNote st) <> "" ->
  store_insert (user_id u) videoId (trim (Notes.newNote st)) = Notes.StoreOk row ->
  (forall note, In note (Notes.notes st) -> Notes.id note <> Notes.id row) ->
  confirm "Are you sure you want to delete this note?" = true ->
  store_delete (Notes.id row) = Notes.StoreOk tt ->
  let added :=
    fst (Notes.handleAddNote trim videoId (Some u) insert_event store_insert st) in
  let deleted :=
    fst (Notes.handleDeleteNote videoId (Some u) insert_event store_delete confirm
           (Notes.id row) added) in
  Notes.notes added = row :: Notes.notes st /\
  Notes.notes deleted = Notes.notes st.
Proof.
  intros Hblank Hins Hfresh Hyes Hdel added deleted.
  assert (Hadded : Notes.notes added = row :: Notes.notes st).
  { subst added. unfold Notes.handleAddNote.
    apply String.eqb_neq in Hblank. rewrite Hblank, Hins. reflexivity. }
  split; [exact Hadded |].
  subst deleted. unfold Notes.handleDeleteNote.
  rewrite Hyes, Hdel. cbn [negb fst Notes.notes]. rewrite Hadded.
  cbn [filter]. rewrite String.eqb_refl. cbn [negb].
  apply filter_all_true. intros note Hin.
  apply negb_true_iff, String.eqb_neq. exact (Hfresh note Hin).
Qed.

Lemma add_then_delete_restores_the_notes_witness :
  trim_latin1 (Notes.newNote notes_ready) <> "" /\
  (forall note, In note (Notes.notes notes_ready) ->
                Notes.id note <> Notes.id inserted_row) /\
  always_yes "Are you sure you want to delete this note?" = true /\
  Notes.notes
    (fst (Notes.handleDeleteNote "abc123" (Some alice) log_ok
            (fun _ => Notes.StoreOk tt) always_yes (Notes.id inserted_row)
            (fst (Notes.handleAddNote trim_latin1 "abc123" (Some alice) log_ok
                    insert_accepted notes_ready))))
  = [note1; note2].
Proof.
  assert (Hnew : trim_latin1 (Notes.newNote notes_ready) <> "")
    by (vm_compute; discriminate).
  assert (Hfresh : forall note, In note (Notes.notes notes_ready) ->
                     Notes.id note <> Notes.id inserted_row).
  { intros note [<- | [<- | []]]; discriminate. }
  split; [exact Hnew |]. split; [exact Hfresh |]. split; [reflexivity |].
  exact (proj2 (add_then_delete_restores_the_notes trim_latin1 "abc123" alice log_ok
                  insert_accepted (fun _ => Notes.StoreOk tt) always_yes
                  inserted_row notes_ready Hnew eq_refl Hfresh eq_refl eq_refl)).
Defined.

(** X18.  When the store answers an edit of note [n] with a row that
    carries the identifier [n], the edit changes no identifier and no
    position: the sequence of identifiers of the panel is the same
    before and after. *)
Theorem edit_keeps_the_identifiers
  (trim : string -> string) (videoId : string) (user : option User)
  (insert_event : string -> string -> JSON -> Outcome unit)
  (store_update : string -> string -> Notes.StoreReply Notes.Note)
  (n : string) (row : Notes.Note) (st : Notes.State) :
  trim (Notes.editContent st) <> "" ->
  store_update n (trim (Notes.editContent st)) = Notes.StoreOk row ->
  Notes.id row = n ->
  map Notes.id
    (Notes.notes (fst (Notes.handleEditNote trim videoId user insert_event
                         store_update n st)))
  = map Notes.id (Notes.notes st).
Proof.
  intros Hblank Hupd Hid. unfold Notes.handleEditNote.
  apply String.eqb_neq in Hblank. rewrite Hblank, Hupd.
  cbn [fst Notes.notes]. rewrite map_map. apply map_ext.
  intros note. destruct (String.eqb_spec (Notes.id note) n) as [-> | _];
    [exact Hid | reflexivity].
Qed.

Lemma edit_keeps_the_identifiers_witness :
  trim_latin1 (Notes.editContent notes_ready) <> "" /\
  Notes.id updated_row = "n1" /\
  map Notes.id
    (Notes.notes (fst (Notes.handleEditNote trim_latin1 "abc123" (Some alice) log_ok
                         update_accepted "n1" notes_ready)))
  = ["n1"; "n2"].
Proof.
  assert (Hedit : trim_latin1 (Notes.editContent notes_ready) <> "")
    by (vm_compute; discriminate).
  split; [exact Hedit |]. split; [reflexivity |].
  exact (edit_keeps_the_identifiers trim_latin1 "abc123" (Some alice) log_ok update_accepted
           "n1" updated_row notes_ready Hedit eq_refl eq_refl).
Defined.

(** X19.  Deleting is idempotent on the sequence, and deleting an
    identifier no note carries leaves the sequence as it is: after one
    successful delete of [n], a second successful delete of [n] changes
    nothing. *)
Theorem delete_is_idempotent
  (videoId : string) (user : option User)
  (insert_event : string -> string -> JSON -> Outcome unit)
  (store_delete : string -> Notes.StoreReply unit)
  (confirm : string -> bool) (n : string) (st : Notes.State) :
  confirm "Are you sure you want to delete this note?" = true ->
  store_delete n = Notes.StoreOk tt ->
  let once :=
    fst (Notes.handleDeleteNote videoId user insert_event store_delete confirm
           n st) in
  let twice :=
    fst (Notes.handleDeleteNote videoId user insert_event store_delete confirm
           n once) in
  Notes.notes twice = Notes.notes once /\
  ((forall note, In note (Notes.notes st) -> Notes.id note <> n) ->
   Notes.notes once = Notes.notes st).
Proof.
  intros Hyes Hdel once twice. subst twice once.
  unfold Notes.handleDeleteNote. rewrite Hyes, Hdel.
  cbn [negb fst Notes.notes]. split.
  - apply filter_twice.
  - intros Habsent. apply filter_all_true. intros note Hin.
    apply negb_true_iff, String.eqb_neq. exact (Habsent note Hin).
Qed.

Lemma delete_is_idempotent_witness :
  always_yes "Are you sure you want to delete this note?" = true /\
  Notes.notes
    (fst (Notes.handleDeleteNote "abc123" (Some alice) log_ok
            (fun _ => Notes.StoreOk tt) always_yes "n1"
            (fst (Notes.handleDeleteNote "abc123" (Some alice) log_ok
                    (fun _ => Notes.StoreOk tt) always_yes "n1" notes_ready))))
  = Notes.notes
      (fst (Notes.handleDeleteNote "abc123" (Some alice) log_ok
              (fun _ => Notes.StoreOk tt) always_yes "n1" notes_ready)).
Proof.
  split; [reflexivity |].
  exact (proj1 (delete_is_idempotent "abc123" (Some alice) log_ok
                  (fun _ => Notes.StoreOk tt) always_yes "n1" notes_ready
                  eq_refl eq_refl)).
Defined.

(** X20.  Input that is empty or only white space never reaches the
    store: adding a blank note, adding while signed out, and saving a
    blank edit leave the panel exactly as it was and have no effect at
    all; a delete that the user declines to confirm asks the question
    and does nothing else. *)
Theorem blank_input_never_reaches_the_store
  (trim : string -> string) (videoId : string) (user : option User)
  (insert_event : string -> string -> JSON -> Outcome unit)
  (store_insert : string -> string -> string -> Notes.StoreReply Notes.Note)
  (store_update : string -> string -> Notes.StoreReply Notes.Note)
  (store_delete : string -> Notes.StoreReply unit)
  (confirm : string -> bool) (n : string) (st : Notes.State) :
  (trim (Notes.newNote st) = "" \/ user = None ->
   Notes.handleAddNote trim videoId user insert_event store_insert st = (st, []))
  /\
  (trim (Notes.editContent st) = "" ->
   Notes.handleEditNote trim videoId user insert_event store_update n st = (st, []))
  /\
  (confirm "Are you sure you want to delete this note?" = false ->
   Notes.handleDeleteNote videoId user insert_event store_delete confirm n st
   = (st, [Confirm "Are you sure you want to delete this note?"])).
Proof.
  split; [| split].
  - intros [Hblank | ->]; unfold Notes.handleAddNote; [| reflexivity].
    destruct user; [| reflexivity]. rewrite Hblank. reflexivity.
  - intros Hblank. unfold Notes.handleEditNote. rewrite Hblank. reflexivity.
  - intros Hno. unfold Notes.handleDeleteNote. rewrite Hno. reflexivity.
Qed.

Lemma blank_input_never_reaches_the_store_witness :
  trim_latin1 "  " = "" /\
  Notes.handleAddNote trim_latin1 "abc123" (Some alice) log_ok insert_accepted
    (Notes.mkState [note1] false "" None "" "  " false)
  = (Notes.mkState [note1] false "" None "" "  " false, []).
Proof.
  split; [reflexivity |].
  exact (proj1 (blank_input_never_reaches_the_store trim_latin1 "abc123" (Some alice) log_ok
                  insert_accepted update_accepted delete_refused always_yes "n1"
                  (Notes.mkState [note1] false "" None "" "  " false))
           (or_introl eq_refl)).
Defined.

(** X21.  With a user signed in, every run of a notes action that gets
    past its guard issues exactly one insert into the event log, owned
    by that user, whether or not that insert then succeeds; its type is
    the name of the action when the store accepted the call and the
    [_failed] variant when it did not. *)
Theorem notes_actions_log_exactly_one_event
  (trim : string -> string) (videoId : string) (u : User)
  (insert_event : string -> string -> JSON -> Outcome unit)
  (store_select : string -> string -> Notes.StoreReply (option (list Notes.Note)))
  (store_insert : string -> string -> string -> Notes.StoreReply Notes.Note)
  (store_update : string -> string -> Notes.StoreReply Notes.Note)
  (store_delete : string -> Notes.StoreReply unit)
  (confirm : string -> bool) (n : string) (st : Notes.State) :
  logged (snd (Notes.fetchNotes videoId (Some u) insert_event store_select st))
  = [(user_id u,
      match store_select videoId (user_id u) with
      | Notes.StoreOk _ => "notes_fetched"
      | Notes.StoreFailed _ => "notes_fetch_failed"
      end)]
  /\
  (trim (Notes.newNote st) <> "" ->
   logged (snd (Notes.handleAddNote trim videoId (Some u) insert_event store_insert st))
   = [(user_id u,
       match store_insert (user_id u) videoId (trim (Notes.newNote st)) with
       | Notes.StoreOk _ => "note_added"
       | Notes.StoreFailed _ => "note_add_failed"
       end)])
  /\
  (trim (Notes.editContent st) <> "" ->
   logged (snd (Notes.handleEditNote trim videoId (Some u) insert_event store_update
                  n st))
   = [(user_id u,
       match store_update n (trim (Notes.editContent st)) with
       | Notes.StoreOk _ => "note_updated"
       | Notes.StoreFailed _ => "note_update_failed"
       end)])
  /\
  (confirm "Are you sure you want to delete this note?" = true ->
   logged (snd (Notes.handleDeleteNote videoId (Some u) insert_event store_delete
                  confirm n st))
   = [(user_id u,
       match store_delete n with
       | Notes.StoreOk _ => "note_deleted"
       | Notes.StoreFailed _ => "note_delete_failed"
       end)]).
Proof.
  split; [| split; [| split]].
  - unfold Notes.fetchNotes, Notes.logEvent.
    destruct (store_select videoId (user_id u)); cbn [snd logged];
      apply logged_logEvent.
  - intros Hblank. unfold Notes.handleAddNote, Notes.logEvent.
    apply String.eqb_neq in Hblank. rewrite Hblank.
    destruct (store_insert (user_id u) videoId (trim (Notes.newNote st)));
      cbn [snd logged]; apply logged_logEvent.
  - intros Hblank. unfold Notes.handleEditNote, Notes.logEvent.
    apply String.eqb_neq in Hblank. rewrite Hblank.
    destruct (store_update n (trim (Notes.editContent st)));
      cbn [snd logged]; apply logged_logEvent.
  - intros Hyes. unfold Notes.handleDeleteNote, Notes.logEvent.
    rewrite Hyes. cbn [negb].
    destruct (store_delete n); cbn [snd logged]; apply logged_logEvent.
Qed.

Lemma notes_actions_log_exactly_one_event_witness :
  trim_latin1 (Notes.newNote notes_ready) <> "" /\
  logged (snd (Notes.handleAddNote trim_latin1 "abc123" (Some alice) log_ok insert_refused
                 notes_ready))
  = [("user-1", "note_add_failed")].
Proof.
  assert (Hnew : trim_latin1 (Notes.newNote notes_ready) <> "")
    by (vm_compute; discriminate).
  split; [exact Hnew |].
  exact (proj1 (proj2 (notes_actions_log_exactly_one_event trim_latin1 "abc123" alice log_ok
                         select_two insert_refused update_accepted delete_refused
                         always_yes "n1" notes_ready)) Hnew).
Defined.

(** X22.  Opening the editor of a note and saving at once sends the
    content of that note, trimmed, to the store under the note's
    identifier; when the store accepts, the editor closes (no note is
    being edited and the edit buffer is empty).  Cancelling instead
    closes the editor without any call and without touching the
    sequence. *)
Theorem editing_a_note_round_trip
  (trim : string -> string) (videoId : string) (user : option User)
  (insert_event : string -> string -> JSON -> Outcome unit)
  (store_update : string -> string -> Notes.StoreReply Notes.Note)
  (note row : Notes.Note) (st : Notes.State) :
  trim (Notes.content note) <> "" ->
  store_update (Notes.id note) (trim (Notes.content note)) = Notes.StoreOk row ->
  let run := Notes.handleEditNote trim videoId user insert_event store_update
               (Notes.id note) (NotesEditing.startEditing note st) in
  hd_error (snd run) = Some (UpdateNote (Notes.id note) (trim (Notes.content note)))
  /\ Notes.editingNote (fst run) = None
  /\ Notes.editContent (fst run) = ""
  /\ NotesEditing.cancelEditing (NotesEditing.startEditing note st)
     = NotesEditing.cancelEditing st
  /\ Notes.notes (NotesEditing.cancelEditing (NotesEditing.startEditing note st))
     = Notes.notes st.
Proof.
  intros Hblank Hupd run. subst run.
  unfold Notes.handleEditNote, NotesEditing.startEditing.
  cbn [Notes.editContent]. apply String.eqb_neq in Hblank.
  rewrite Hblank, Hupd. repeat split.
Qed.

Lemma editing_a_note_round_trip_witness :
  trim_latin1 (Notes.content note1) <> "" /\
  Notes.editingNote
    (fst (Notes.handleEditNote trim_latin1 "abc123" (Some alice) log_ok update_accepted
            (Notes.id note1) (NotesEditing.startEditing note1 notes_ready)))
  = None.
Proof.
  assert (Hc : trim_latin1 (Notes.content note1) <> "") by (vm_compute; discriminate).
  split; [exact Hc |].
  exact (proj1 (proj2 (editing_a_note_round_trip trim_latin1 "abc123" (Some alice) log_ok
                         update_accepted note1 updated_row notes_ready
                         Hc eq_refl))).
Defined.

(** ** The comments panel: composition of its handlers *)

(** X23.  Posting a comment and then deleting the synthetic comment by
    its identifier brings the sequence back to what it was, provided no
    comment of the panel already carried that identifier. *)
Theorem post_then_delete_restores_the_comments
  (trim : string -> string) (videoId : string) (u : User)
  (insert_event : string -> string -> JSON -> Outcome unit)
  (now_ms : string) (now_iso : string) (st : Comments.State) :
  trim (Comments.newComment st) <> "" ->
  (forall c, In c (Comments.comments st) ->
             Comments.id c <> "mock-" ++ now_ms) ->
  let posted :=
    fst (Comments.handlePostComment trim videoId (Some u) insert_event
           now_ms now_iso st) in
  let deleted :=
    fst (Comments.handleDeleteComment videoId (Some u) insert_event
           ("mock-" ++ now_ms) posted) in
  length (Comments.comments posted) = S (length (Comments.comments st)) /\
  Comments.comments deleted = Comments.comments st.
Proof.
  intros Hblank Hfresh posted deleted. subst deleted posted.
  unfold Comments.handlePostComment, Comments.handleDeleteComment.
  apply String.eqb_neq in Hblank. rewrite Hblank.
  cbn [fst Comments.comments length filter Comments.id].
  split; [reflexivity |].
  rewrite String.eqb_refl. cbn [negb].
  apply filter_all_true. intros c Hin.
  apply negb_true_iff, String.eqb_neq. exact (Hfresh c Hin).
Qed.

Lemma post_then_delete_restores_the_comments_witness :
  trim_latin1 (Comments.newComment comments_ready) <> "" /\
  (forall c, In c (Comments.comments comments_ready) ->
             Comments.id c <> "mock-" ++ "1753000000000") /\
  Comments.comments
    (fst (Comments.handleDeleteComment "abc123" (Some alice) log_ok
            ("mock-" ++ "1753000000000")
            (fst (Comments.handlePostComment trim_latin1 "abc123" (Some alice) log_ok
                    "1753000000000" "2025-07-20T08:26:40.000Z" comments_ready))))
  = [sample_comment].
Proof.
  assert (Hblank : trim_latin1 (Comments.newComment comments_ready) <> "")
    by (vm_compute; discriminate).
  assert (Hfresh : forall c, In c (Comments.comments comments_ready) ->
                     Comments.id c <> "mock-" ++ "1753000000000").
  { intros c [<- | []]. vm_compute. discriminate. }
  split; [exact Hblank |]. split; [exact Hfresh |].
  exact (proj2 (post_then_delete_restores_the_comments trim_latin1 "abc123" alice log_ok
                  "1753000000000" "2025-07-20T08:26:40.000Z" comments_ready
                  Hblank Hfresh)).
Defined.

(** ** The video card and the video editor *)

(** X24.  The card never stays blank after a load that produced no
    video: when [getVideoDetails] resolves to [undefined] the card shows
    an error box with the TypeError raised on reading [data.snippet],
    and when the call rejects with a non-empty message it shows that
    message; either way the failure is logged as
    [video_details_fetch_failed] and the loading flag is down. *)
Theorem card_shows_every_failed_load
  (videoId : string) (user : option User)
  (insert_event : string -> string -> JSON -> Outcome unit)
  (getVideoDetails : string -> Outcome (option YouTube.VideoDetails))
  (st : VideoCard.State) :
  let run := VideoCard.fetchVideoDetails videoId user insert_event
               getVideoDetails st in
  (getVideoDetails videoId = Returns None ->
   VideoCard.render (fst run)
   = VideoCard.ErrorBox "Cannot read properties of undefined (reading 'snippet')"
   /\ VideoCard.video (fst run) = None
   /\ forall u, user = Some u ->
        logged (snd run) = [(user_id u, "video_details_fetch_failed")])
  /\
  (forall err, getVideoDetails videoId = Throws err -> message err <> "" ->
   VideoCard.render (fst run) = VideoCard.ErrorBox (message err)
   /\ VideoCard.video (fst run) = VideoCard.video st
   /\ forall u, user = Some u ->
        logged (snd run) = [(user_id u, "video_details_fetch_failed")]).
Proof.
  intros run. subst run. unfold VideoCard.fetchVideoDetails, VideoCard.logEvent.
  split.
  - intros ->. split; [reflexivity |]. split; [reflexivity |].
    intros u ->. cbn [snd logged]. apply logged_logEvent.
  - intros err -> Hmsg. split.
    + unfold VideoCard.render. cbn [fst VideoCard.loading VideoCard.error].
      apply String.eqb_neq in Hmsg. rewrite Hmsg. reflexivity.
    + split; [reflexivity |].
      intros u ->. cbn [snd logged]. apply logged_logEvent.
Qed.

Lemma card_shows_every_failed_load_witness :
  resolves_undefined "unknown-id" = Returns None /\
  VideoCard.render
    (fst (VideoCard.fetchVideoDetails "unknown-id" (Some alice) log_ok
            resolves_undefined card_idle))
  = VideoCard.ErrorBox "Cannot read properties of undefined (reading 'snippet')".
Proof.
  split; [reflexivity |].
  exact (proj1 (proj1 (card_shows_every_failed_load "unknown-id" (Some alice)
                         log_ok resolves_undefined card_idle) eq_refl)).
Defined.

(** X25.  The editor shows its error text only inside the form, and the
    form only once a video is loaded: when the first load fails (the
    call rejects, or resolves to [undefined]) the error text is set but
    the editor shows the invitation to enter a video id, not the
    error. *)
Theorem editor_hides_a_failed_first_load
  (videoId : string) (user : option User)
  (insert_event : string -> string -> JSON -> Outcome unit)
  (getVideoDetails : string -> Outcome (option YouTube.VideoDetails))
  (st : VideoEditor.State) :
  VideoEditor.video st = None ->
  let run := VideoEditor.fetchVideoDetails videoId user insert_event
               getVideoDetails st in
  (forall err, getVideoDetails videoId = Throws err ->
     VideoEditor.error (fst run) = message err /\
     VideoEditor.render (fst run) = VideoEditor.Placeholder)
  /\
  (getVideoDetails videoId = Returns None ->
   VideoEditor.error (fst run)
   = "Cannot read properties of undefined (reading 'snippet')" /\
   VideoEditor.render (fst run) = VideoEditor.Placeholder).
Proof.
  intros Hvideo run. subst run. unfold VideoEditor.fetchVideoDetails. split.
  - intros err ->. split; [reflexivity |].
    unfold VideoEditor.render. cbn [fst VideoEditor.loading VideoEditor.video].
    rewrite Hvideo. reflexivity.
  - intros ->. split; reflexivity.
Qed.

Lemma editor_hides_a_failed_first_load_witness :
  VideoEditor.video editor_idle = None /\
  VideoEditor.error
    (fst (VideoEditor.fetchVideoDetails "abc123" (Some alice) log_ok
            (fun _ => Throws (new_Error "Video ID is required")) editor_idle))
  = "Video ID is required" /\
  VideoEditor.render
    (fst (VideoEditor.fetchVideoDetails "abc123" (Some alice) log_ok
            (fun _ => Throws (new_Error "Video ID is required")) editor_idle))
  = VideoEditor.Placeholder.
Proof.
  split; [reflexivity |].
  exact (proj1 (editor_hides_a_failed_first_load "abc123" (Some alice) log_ok
                  (fun _ => Throws (new_Error "Video ID is required"))
                  editor_idle eq_refl)
           (new_Error "Video ID is required") eq_refl).
Defined.

(** X26.  Saving in the editor is local.  With a video loaded and a
    user signed in, [handleSave] calls neither the proxy nor
    [updateVideo]; it writes one [video_update_attempted] row to the
    event log, reports success, and puts the typed title and
    description into its own copy of the video, whose other fields stay
    as loaded.  The form is then clean: the save button is disabled.
    Without a loaded video or a signed-in user it does nothing. *)
Theorem save_is_local
  (videoId : string) (user : option User)
  (insert_event : string -> string -> JSON -> Outcome unit)
  (st : VideoEditor.State) :
  (forall v u, VideoEditor.video st = Some v -> user = Some u ->
     let run := VideoEditor.handleSave videoId user insert_event st in
     Forall (fun e => editor_proxy_call e = false) (snd run) /\
     (exists v',
        VideoEditor.video (fst run) = Some v' /\
        YouTube.title (YouTube.snippet v') = VideoEditor.title st /\
        YouTube.description (YouTube.snippet v') = VideoEditor.description st /\
        YouTube.id v' = YouTube.id v /\
        YouTube.statistics v' = YouTube.statistics v /\
        YouTube.status v' = YouTube.status v /\
        YouTube.thumbnails (YouTube.snippet v')
        = YouTube.thumbnails (YouTube.snippet v)) /\
     VideoEditor.success (fst run) = "Video updated successfully!" /\
     VideoEditor.error (fst run) = "" /\
     (VideoEditor.loading st = false ->
      VideoEditor.render (fst run)
      = VideoEditor.Form "" "Video updated successfully!" true))
  /\
  (VideoEditor.video st = None \/ user = None ->
   VideoEditor.handleSave videoId user insert_event st = (st, [])).
Proof.
  split.
  - intros v u Hv -> run. subst run. unfold VideoEditor.handleSave.
    rewrite Hv. cbn [fst snd].
    split.
    { constructor; [reflexivity |]. apply Forall_app. split.
      - unfold VideoEditor.logEvent, EventLogger.logEvent.
        destruct (insert_event (user_id u) "video_update_attempted" _);
          repeat constructor.
      - repeat constructor. }
    split.
    { eexists. cbn [VideoEditor.video]. split; [reflexivity |].
      repeat split. }
    split; [reflexivity |]. split; [reflexivity |].
    intros Hload. unfold VideoEditor.render.
    cbn [VideoEditor.loading VideoEditor.video VideoEditor.saving
         VideoEditor.title VideoEditor.description VideoEditor.error
         VideoEditor.success VideoEditor.with_text YouTube.snippet
         YouTube.title YouTube.description].
    rewrite Hload, !String.eqb_refl. reflexivity.
  - intros [Hv | ->]; unfold VideoEditor.handleSave.
    + rewrite Hv. reflexivity.
    + destruct (VideoEditor.video st); reflexivity.
Qed.

Lemma save_is_local_witness :
  VideoEditor.video editor_dirty = Some sample_video /\
  VideoEditor.loading editor_dirty = false /\
  VideoEditor.render
    (fst (VideoEditor.handleSave "abc123" (Some alice) log_ok editor_dirty))
  = VideoEditor.Form "" "Video updated successfully!" true.
Proof.
  split; [reflexivity |]. split; [reflexivity |].
  exact (proj2 (proj2 (proj2 (proj2
           (proj1 (save_is_local "abc123" (Some alice) log_ok editor_dirty)
              sample_video alice eq_refl eq_refl)))) eq_refl).
Defined.

Lemma length_substring_0 (n : nat) (s : string) :
  String.length (String.substring 0 n s) = Nat.min n (String.length s).
Proof.
  revert s. induction n as [| n IH]; intros [| c s]; cbn; try reflexivity.
  rewrite IH. reflexivity.
Qed.

Lemma length_append (s t : string) :
  String.length (s ++ t) = (String.length s + String.length t)%nat.
Proof.
  induction s as [| c s IH]; cbn; [reflexivity |]. rewrite IH. reflexivity.
Qed.

Lemma prefix_substring_0 (n : nat) (s : string) :
  String.prefix (String.substring 0 n s) s = true.
Proof.
  revert s. induction n as [| n IH]; intros [| c s]; cbn; try reflexivity.
  destruct (ascii_dec c c) as [_ | Hc]; [apply IH | contradiction].
Qed.

(** X27.  The description printed on the card is never longer than 303
    characters.  A description of at most 300 characters is printed in
    full; a longer one is printed as its first 300 characters followed
    by "..."; an empty one is not printed at all. *)
Theorem shown_description_is_bounded (d : string) :
  (VideoCard.shown_description d = None <-> d = "") /\
  (forall shown, VideoCard.shown_description d = Some shown ->
     (String.length shown <= 303)%nat /\
     ((String.length d <= 300)%nat -> shown = d) /\
     ((300 < String.length d)%nat ->
      exists head,
        shown = head ++ "..." /\ String.length head = 300%nat /\
        String.prefix head d = true)).
Proof.
  unfold VideoCard.shown_description.
  destruct (String.eqb_spec d "") as [-> | Hd].
  - split; [split; reflexivity |]. intros shown H. discriminate H.
  - split.
    { split; [| contradiction].
      destruct (300 <? String.length d)%nat; discriminate. }
    intros shown Hshown.
    destruct (Nat.ltb_spec 300 (String.length d)) as [Hlong | Hshort];
      injection Hshown as <-.
    + split; [| split].
      * rewrite length_append, length_substring_0.
        change (String.length "...") with 3%nat. lia.
      * intros Hle. lia.
      * intros _. exists (String.substring 0 300 d).
        split; [reflexivity |].
        split; [rewrite length_substring_0; lia | apply prefix_substring_0].
    + split; [lia |]. split; [reflexivity |]. intros Hlt. lia.
Qed.

Lemma shown_description_is_bounded_witness :
  VideoCard.shown_description "A short description" = Some "A short description" /\
  (String.length "A short description" <= 303)%nat.
Proof.
  split; [reflexivity |].
  exact (proj1 (proj2 (shown_description_is_bounded "A short description")
                  "A short description" eq_refl)).
Defined.

(** The switch looks at neither the method nor the body on the two
    read branches. *)
Lemma dispatch_read_ignores_method_and_body
  (key : option string)
  (up : Proxy.UpstreamRequest -> Outcome Proxy.UpstreamResponse)
  (req1 req2 : Proxy.Request) (action videoId : option string) :
  action = Some "video-details" \/ action = Some "comments" ->
  Proxy.dispatch key up req1 action videoId
  = Proxy.dispatch key up req2 action videoId.
Proof.
  intros [-> | ->]; reflexivity.
Qed.

(** X28.  The two reads are served whatever the method and the body of
    the request: two requests for [video-details] (or [comments]) with
    the same query, neither of them a preflight, get the same response
    and cause the same upstream call. *)
Theorem reads_ignore_method_and_body
  (key : option string) (cors : list (string * string))
  (up : Proxy.UpstreamRequest -> Outcome Proxy.UpstreamResponse)
  (req1 req2 : Proxy.Request) :
  Proxy.searchParams req1 = Proxy.searchParams req2 ->
  searchParams_get (Proxy.searchParams req1) "action" = Some "video-details" \/
  searchParams_get (Proxy.searchParams req1) "action" = Some "comments" ->
  (Proxy.method req1 =? "OPTIONS")%string = false ->
  (Proxy.method req2 =? "OPTIONS")%string = false ->
  Proxy.handler key cors up req1 = Proxy.handler key cors up req2.
Proof.
  intros Hquery Haction Hm1 Hm2.
  unfold Proxy.handler, Proxy.handler_try. rewrite Hm1, Hm2, <- Hquery.
  rewrite (dispatch_read_ignores_method_and_body key up req1 req2 _ _ Haction).
  reflexivity.
Qed.

Lemma reads_ignore_method_and_body_witness :
  Proxy.handler (Some "KEY") [] serves_one_video
    (Proxy.mkRequest "DELETE" [("action", "video-details"); ("videoId", "abc123")]
       (Returns JNull))
  = Proxy.handler (Some "KEY") [] serves_one_video get_video_details.
Proof.
  exact (reads_ignore_method_and_body (Some "KEY") [] serves_one_video
           (Proxy.mkRequest "DELETE"
              [("action", "video-details"); ("videoId", "abc123")]
              (Returns JNull))
           get_video_details eq_refl (or_introl eq_refl) eq_refl eq_refl).
Defined.
